(** * RAG bootcamp notebooks: web search (LlamaIndex) and SQL search (LangChain)

    A shallow embedding of the two notebooks [web_search_llamaindex.ipynb]
    and [sql_search_langchain.ipynb].  Each code cell becomes a computation
    in a small state-and-exception monad over the notebook kernel; the hosted
    services the cells talk to (chat completion, web search, HTTP, SQLite)
    are fields of a record of oracles over an abstract outside world, so that
    two calls with the same arguments may answer differently. *)

From Stdlib Require Import String Ascii List ZArith QArith Bool Arith Lia.
From Stdlib Require Import Sorting.Sorted DecimalString.
Import ListNotations.
Close Scope Q_scope.
Local Open Scope string_scope.

(** ** Python values the notebooks rely on *)
Module Py.

(** An exception object.  [exc_is_Exception] is [isinstance(err, Exception)]
    (false for [KeyboardInterrupt] and the like, which derive from
    [BaseException] only); [exc_message] is the attribute [err.message],
    [None] when the object has no such attribute, as is the case for the
    built-in exceptions of Python 3. *)
Record exception : Type := BaseException {
  exc_class : string;
  exc_is_Exception : bool;
  exc_str : string;
  exc_message : option string
}.

(** What evaluating [obj.attr] raises when [obj] has no attribute [attr]. *)
Definition AttributeError (attr : string) : exception :=
  {| exc_class := "AttributeError";
     exc_is_Exception := true;
     exc_str := "object has no attribute " ++ attr;
     exc_message := None |}.

Inductive outcome (A : Type) : Type :=
| Returned (a : A)
| Raised (e : exception).
Arguments Returned {A} a.
Arguments Raised {A} e.

(** [needle in hay] on [str]. *)
Fixpoint str_in (needle hay : string) : bool :=
  if String.prefix needle hay then true
  else match hay with
       | EmptyString => false
       | String _ rest => str_in needle rest
       end.

Definition nl : string := String (ascii_of_nat 10) EmptyString.

(** [sep.join(parts)] *)
Fixpoint join (sep : string) (parts : list string) : string :=
  match parts with
  | [] => EmptyString
  | [p] => p
  | p :: rest => p ++ sep ++ join sep rest
  end.

End Py.
Import Py.

(** ** The notebook kernel *)

(** A chat message, [ChatMessage(role=..., content=...)] in LlamaIndex and
    the pair [(role, content)] in LangChain. *)
Record ChatMessage : Type := { role : string; content : string }.

(** What the kernel does that is visible from outside, in the order it
    happens. *)
Inductive event : Type :=
| EvGenerate (messages : list ChatMessage)
| EvSearch (q : string)
| EvFetch (url : string)
| EvExtract (html : string)
| EvChunk (ndocs : nat)
| EvEmbed (text : string)
| EvInsert (text : string)
| EvRetrieve (q : string)
| EvPrompt (q : string)
| EvSqlRun (sql : string).

Section Kernel.

Context {W : Type}.

(** The kernel between two statements: the outside world, what has been
    done so far (oldest first) and what has been printed. *)
Record kernel : Type := {
  world : W;
  trace : list event;
  stdout : list string
}.

Definition cell (A : Type) : Type := kernel -> outcome A * kernel.

Definition ret {A} (a : A) : cell A := fun k => (Returned a, k).

Definition bind {A B} (c : cell A) (f : A -> cell B) : cell B :=
  fun k =>
    match c k with
    | (Returned a, k') => f a k'
    | (Raised e, k') => (Raised e, k')
    end.

Definition raise {A} (e : exception) : cell A := fun k => (Raised e, k).

(** [try: body / except Exception as err: handler err].  Only instances of
    [Exception] are caught; the handler starts from the kernel as the body
    left it. *)
Definition try_except_Exception {A} (body : cell A)
    (handler : exception -> cell A) : cell A :=
  fun k =>
    match body k with
    | (Returned a, k') => (Returned a, k')
    | (Raised err, k') =>
        if exc_is_Exception err then handler err k' else (Raised err, k')
    end.

Definition print (s : string) : cell unit :=
  fun k => (Returned tt,
            {| world := world k; trace := trace k; stdout := stdout k ++ [s] |}).

Definition log (e : event) : cell unit :=
  fun k => (Returned tt,
            {| world := world k; trace := trace k ++ [e]; stdout := stdout k |}).

(** A call to an outside service: the world answers and moves on. *)
Definition ask {A} (service : W -> outcome A * W) : cell A :=
  fun k =>
    let (r, w') := service (world k) in
    (r, {| world := w'; trace := trace k; stdout := stdout k |}).

End Kernel.

Arguments kernel W : clear implicits.
Arguments cell W A : clear implicits.

Declare Scope cell_scope.
Delimit Scope cell_scope with cell.
Notation "x <- c ;; k" := (bind c (fun x => k))
  (at level 61, c at next level, right associativity) : cell_scope.
Notation "c ;; k" := (bind c (fun _ => k))
  (at level 61, right associativity) : cell_scope.
Local Open Scope cell_scope.

Definition GENERATOR_MODEL_NAME : string := "Meta-Llama-3.1-8B-Instruct".

(** The [except] branch both notebooks put around their first generation
    request:
<<
    except Exception as err:
        if "Error code: 503" in err.message:
            print(f"The model {GENERATOR_MODEL_NAME} is not ready yet.")
        else:
            raise
>>
    Reading [err.message] on an object without that attribute raises
    [AttributeError] from inside the handler. *)
Definition not_ready_message : string :=
  "The model " ++ GENERATOR_MODEL_NAME ++ " is not ready yet.".

Definition except_handler {W} (err : exception) : cell W unit :=
  match exc_message err with
  | None => raise (AttributeError "message")
  | Some m =>
      if str_in "Error code: 503" m
      then print not_ready_message
      else raise err
  end.

(** ** [web_search_llamaindex.ipynb] *)
Module WebSearch.

(** [llama_index.core.Document], as built from one text. *)
Record Document : Type := { doc_text : string }.

(** A chunk: a slice of one source document. *)
Record TextNode : Type := {
  node_text : string;
  node_doc : nat;
  node_offset : nat
}.

Record NodeWithScore : Type := { node : TextNode; score : Z }.

(** [faiss.IndexFlatL2(d)]: the stored vectors, in insertion order. *)
Record IndexFlatL2 : Type := { d : nat; xb : list (list Z) }.

(** [VectorStoreIndex]: the flat index and, position by position, the node
    each stored vector was computed from. *)
Record VectorStoreIndex : Type := {
  faiss_index : IndexFlatL2;
  index_nodes : list TextNode
}.

(** [index.as_retriever(similarity_top_k=k)] *)
Record VectorIndexRetriever : Type := {
  retriever_index : VectorStoreIndex;
  similarity_top_k : nat
}.

(** The third-party services behind the notebook.  The chat endpoint, the
    search engine and the web servers answer as the world stands when they
    are asked; the HTML parser, the local embedding model and the prompt
    template are functions of their arguments.  Embedding components are
    exact integers (fixed point): rounding is not modelled. *)
Record services (W : Type) : Type := {
  chat_completions : list ChatMessage -> W -> outcome string * W;
  google_search : string -> W -> outcome (list string) * W;
  http_get : string -> W -> outcome string * W;
  html_get_text : string -> string;
  get_text_embedding : string -> list Z;
  text_qa_template : string -> string -> string
}.
Arguments chat_completions {W} _ _ _.
Arguments google_search {W} _ _ _.
Arguments http_get {W} _ _ _.
Arguments html_get_text {W} _ _.
Arguments get_text_embedding {W} _ _.
Arguments text_qa_template {W} _ _ _.

(** The names the cells bind.  A name not bound yet holds its empty value;
    cells run top to bottom and a raise ends the run, so that value is never
    read.  [result] is the exception: the first generation cell can end
    normally without binding it. *)
Record namespace : Type := {
  query : string;
  result : option string;
  web_documents : list string;
  docs : list Document;
  chunks : list TextNode;
  index : VectorStoreIndex;
  retriever : VectorIndexRetriever;
  retrieved_docs : list NodeWithScore
}.

Definition empty_index : VectorStoreIndex :=
  {| faiss_index := {| d := 0; xb := [] |}; index_nodes := [] |}.

Definition empty_namespace : namespace :=
  {| query := EmptyString; result := None; web_documents := [];
     docs := []; chunks := []; index := empty_index;
     retriever := {| retriever_index := empty_index; similarity_top_k := 0 |};
     retrieved_docs := [] |}.

Definition set_query (q : string) (ns : namespace) : namespace :=
  {| query := q; result := result ns; web_documents := web_documents ns;
     docs := docs ns; chunks := chunks ns; index := index ns;
     retriever := retriever ns; retrieved_docs := retrieved_docs ns |}.

Definition set_result (r : string) (ns : namespace) : namespace :=
  {| query := query ns; result := Some r; web_documents := web_documents ns;
     docs := docs ns; chunks := chunks ns; index := index ns;
     retriever := retriever ns; retrieved_docs := retrieved_docs ns |}.

Definition set_ingested (texts : list string) (ds : list Document)
    (cs : list TextNode) (ns : namespace) : namespace :=
  {| query := query ns; result := result ns; web_documents := texts;
     docs := ds; chunks := cs; index := index ns;
     retriever := retriever ns; retrieved_docs := retrieved_docs ns |}.

Definition set_index (i : VectorStoreIndex) (ns : namespace) : namespace :=
  {| query := query ns; result := result ns; web_documents := web_documents ns;
     docs := docs ns; chunks := chunks ns; index := i;
     retriever := retriever ns; retrieved_docs := retrieved_docs ns |}.

Definition set_retrieved (r : VectorIndexRetriever) (rd : list NodeWithScore)
    (ns : namespace) : namespace :=
  {| query := query ns; result := result ns; web_documents := web_documents ns;
     docs := docs ns; chunks := chunks ns; index := index ns;
     retriever := r; retrieved_docs := rd |}.

Definition show_nat (n : nat) : string :=
  NilEmpty.string_of_uint (Nat.to_uint n).

(** [pretty_print_docs(docs)] *)
Definition pretty_docs (ds : list NodeWithScore) : string :=
  join (nl ++ string_of_list_ascii (repeat "-"%char 100) ++ nl)
       (map (fun '(i, dn) =>
               "Document " ++ show_nat (i + 1) ++ ":" ++ nl ++ nl
               ++ node_text (node dn))
            (combine (seq 0 (List.length ds)) ds)).

Definition pretty_print_docs {W} (ds : list NodeWithScore) : cell W unit :=
  print (pretty_docs ds).

(** [StringIterableReader().load_data(texts=...)]: one document per text. *)
Definition load_data (texts : list string) : list Document :=
  map (fun t => {| doc_text := t |}) texts.

(** *** The chunker *)

Definition chunk_size : nat := 512.
Definition chunk_overlap : nat := 32.

(** Modelled from the spec: the text splitter ([RecursiveCharacterTextSplitter]
    of LangChain, a dependency whose code is not part of the repository).
    The spec describes a chunk as a bounded-length substring of a document,
    at an offset, that overlaps its neighbour by the configured overlap: the
    windows of [size] characters taken every [size - overlap] characters,
    the last one ending with the document.  The splitter of the library
    cuts on separators and strips white space, so its chunks can be shorter
    and share less; nothing below rests on the length of a chunk or on what
    two chunks share. *)
Fixpoint windows (fuel size overlap offset : nat) (text : list ascii)
    : list (nat * list ascii) :=
  match fuel with
  | 0 => []
  | S fuel' =>
      (offset, firstn size (skipn offset text))
      :: (if (List.length text <=? offset + size)%nat then []
          else windows fuel' size overlap (offset + (size - overlap)) text)
  end.

(** Modelled from the spec: [splitter.split_text(text)], the windows of a
    whole document from its first character; a document without text gives
    no chunk. *)
Definition split_text (size overlap : nat) (text : string)
    : list (nat * list ascii) :=
  let cs := list_ascii_of_string text in
  match cs with
  | [] => []
  | _ => windows (List.length cs) size overlap 0 cs
  end.

(** Modelled from the spec: the nodes
    [LangchainNodeParser(splitter).get_nodes_from_documents(docs)] builds
    (LlamaIndex and LangChain, not part of the repository): one node per
    chunk of the splitter, carrying its source document and, as offset, the
    place where the text of the chunk is first found in the document. *)
Definition nodes_of_document (i : nat) (doc : Document) : list TextNode :=
  map (fun '(off, cs) =>
         {| node_text := string_of_list_ascii cs;
            node_doc := i;
            node_offset :=
              match String.index 0 (string_of_list_ascii cs) (doc_text doc) with
              | Some found => found
              | None => off
              end |})
      (split_text chunk_size chunk_overlap (doc_text doc)).

Definition nodes_from_documents (ds : list Document) : list TextNode :=
  flat_map (fun '(i, doc) => nodes_of_document i doc)
           (combine (seq 0 (List.length ds)) ds).

(** *** The flat L2 index and the retriever *)

(** Squared Euclidean distance, the metric of [IndexFlatL2]. *)
Definition l2_distance (x y : list Z) : Z :=
  fold_right Z.add 0%Z
    (map (fun '(a, b) => ((a - b) * (a - b))%Z) (combine x y)).

(** Similarity is the opposite of distance. *)
Definition similarity (n : NodeWithScore) : Z := (- score n)%Z.

Fixpoint insert_by_score (n : NodeWithScore) (l : list NodeWithScore)
    : list NodeWithScore :=
  match l with
  | [] => [n]
  | m :: rest =>
      if (score n <? score m)%Z then n :: m :: rest
      else m :: insert_by_score n rest
  end.

Definition sort_by_score (l : list NodeWithScore) : list NodeWithScore :=
  fold_right insert_by_score [] l.

(** Modelled from the spec: the search of the flat index behind
    [FaissVectorStore] (FAISS and LlamaIndex are dependencies whose code is
    not part of the repository).  The spec has the retriever return the k
    nearest chunks to the embedded query: every stored vector is compared
    with the query vector and the k closest come back, nearest first. *)
Definition faiss_search (idx : VectorStoreIndex) (qv : list Z) (k : nat)
    : list NodeWithScore :=
  firstn k
    (sort_by_score
       (map (fun '(v, n) => {| node := n; score := l2_distance qv v |})
            (combine (xb (faiss_index idx)) (index_nodes idx)))).

(** The text of the response the query engine builds from a completion:
    an empty completion is answered "Empty Response". *)
Definition response_text (completion : string) : string :=
  match completion with
  | EmptyString => "Empty Response"
  | _ => completion
  end.

Section Notebook.

Context {W : Type} (svc : services W).

(** [llm.chat(message)]: one request to the hosted chat-completion
    endpoint. *)
Definition llm_chat (message : list ChatMessage) : cell W string :=
  log (EvGenerate message) ;;
  ask (chat_completions svc message).

(** Modelled from the spec: [search(query, tld="com", num=5, stop=10,
    pause=2)] of the [googlesearch] package (not part of the repository):
    at most [stop] result URLs.  The package asks for the result pages as
    the loop of cell 9 consumes the URLs; here the URLs are asked for in
    one request, before the loop. *)
Definition search (q : string) (num stop : nat) : cell W (list string) :=
  log (EvSearch q) ;;
  urls <- ask (google_search svc q) ;;
  ret (firstn stop urls).

(** [requests.get(url)], then [.content]. *)
Definition requests_get (url : string) : cell W string :=
  log (EvFetch url) ;;
  ask (http_get svc url).

(** [BeautifulSoup(content, 'html.parser').get_text()] *)
Definition soup_get_text (html : string) : cell W string :=
  log (EvExtract html) ;;
  ret (html_get_text svc html).

(** [embed_model.get_text_embedding(text)] *)
Definition embed (text : string) : cell W (list Z) :=
  log (EvEmbed text) ;;
  ret (get_text_embedding svc text).

(** The body of the [for result_url in search(...)] loop, URL after URL. *)
Fixpoint fetch_all (urls : list string) (acc : list string)
    : cell W (list string) :=
  match urls with
  | [] => ret acc
  | result_url :: rest =>
      response <- requests_get result_url ;;
      text <- soup_get_text response ;;
      fetch_all rest (acc ++ [text])
  end.

Definition get_nodes_from_documents (ds : list Document)
    : cell W (list TextNode) :=
  log (EvChunk (List.length ds)) ;;
  ret (nodes_from_documents ds).

(** [get_embed_model_dim(embed_model)] *)
Definition get_embed_model_dim : cell W nat :=
  embed_out <- embed "Dummy Text" ;;
  ret (List.length embed_out).

Fixpoint embed_nodes (ns : list TextNode) : cell W (list (list Z)) :=
  match ns with
  | [] => ret []
  | n :: rest =>
      v <- embed (node_text n) ;;
      vs <- embed_nodes rest ;;
      ret (v :: vs)
  end.

Fixpoint insert_nodes (ns : list TextNode) : cell W unit :=
  match ns with
  | [] => ret tt
  | n :: rest => log (EvInsert (node_text n)) ;; insert_nodes rest
  end.

(** Modelled from the spec: [VectorStoreIndex(chunks, storage_context=...)]
    (LlamaIndex, not part of the repository): embed each chunk, insert into
    the similarity index. *)
Definition build_index (fi : IndexFlatL2) (cs : list TextNode)
    : cell W VectorStoreIndex :=
  vs <- embed_nodes cs ;;
  insert_nodes cs ;;
  ret {| faiss_index := {| d := d fi; xb := xb fi ++ vs |};
         index_nodes := cs |}.

(** Modelled from the spec: [retriever.retrieve(query)] (LlamaIndex, not
    part of the repository): the k nearest chunks to the embedded query.
    Embedding the query is part of this step and leaves no event of its
    own. *)
Definition retrieve (r : VectorIndexRetriever) (q : string)
    : cell W (list NodeWithScore) :=
  log (EvRetrieve q) ;;
  ret (faiss_search (retriever_index r) (get_text_embedding svc q)
                    (similarity_top_k r)).

(** Modelled from the spec: the prompt of the query engine, containing the
    retrieved context and the original query. *)
Definition assemble_prompt (nodes : list NodeWithScore) (q : string)
    : list ChatMessage :=
  [{| role := "user";
      content := text_qa_template svc
                   (join (nl ++ nl) (map (fun n => node_text (node n)) nodes))
                   q |}].

(** Modelled from the spec: [RetrieverQueryEngine(retriever).query(query)]
    (LlamaIndex, not part of the repository): retrieve, assemble the prompt,
    call the generation endpoint; the response is the completion, or
    "Empty Response" when the completion is empty.  The engine of the
    library answers "Empty Response" without a request when nothing was
    retrieved, and may send more than one request when the context does not
    fit one prompt; here it sends one request in every case. *)
Definition query_engine_query (r : VectorIndexRetriever) (q : string)
    : cell W string :=
  nodes <- retrieve r q ;;
  log (EvPrompt q) ;;
  completion <- llm_chat (assemble_prompt nodes q) ;;
  ret (response_text completion).

(** Cell 7: [query = "..."]. *)
Definition cell_query (q : string) (ns : namespace) : cell W namespace :=
  ret (set_query q ns).

(** Cell 8: the generation request without augmentation.
<<
    message = [ChatMessage(role="user", content=query)]
    try:
        result = llm.chat(message)
        print(f"Result: \n\n{result}")
    except Exception as err: ...
>> *)
Definition cell_basic_generation (ns : namespace) : cell W namespace :=
  let message := [{| role := "user"; content := query ns |}] in
  try_except_Exception
    (r <- llm_chat message ;;
     print ("Result: " ++ nl ++ nl ++ "assistant: " ++ r) ;;
     ret (set_result r ns))
    (fun err => except_handler err ;; ret ns).

(** Cell 9: web search, page download, text extraction, chunking. *)
Definition cell_ingestion (ns : namespace) : cell W namespace :=
  urls <- search (query ns) 5 10 ;;
  texts <- fetch_all urls [] ;;
  let ds := load_data texts in
  print ("Number of source documents: " ++ show_nat (List.length ds)) ;;
  cs <- get_nodes_from_documents ds ;;
  print ("Number of text chunks: " ++ show_nat (List.length cs)) ;;
  ret (set_ingested texts ds cs ns).

(** Cells 10 and 11: the embedding model is loaded and set, with the chat
    model, as the default of the library. *)
Definition cell_embeddings (ns : namespace) : cell W namespace :=
  print "Setting up the embeddings model..." ;;
  ret ns.

(** Cell 12: size the flat index on a dummy embedding, then index the
    chunks. *)
Definition cell_index (ns : namespace) : cell W namespace :=
  faiss_dim <- get_embed_model_dim ;;
  i <- build_index {| d := faiss_dim; xb := [] |} (chunks ns) ;;
  ret (set_index i ns).

(** Cell 13: [retriever = index.as_retriever(similarity_top_k=5)] and
    [retrieved_docs = retriever.retrieve(query)]. *)
Definition cell_retrieve (ns : namespace) : cell W namespace :=
  let r := {| retriever_index := index ns; similarity_top_k := 5 |} in
  rd <- retrieve r (query ns) ;;
  ret (set_retrieved r rd ns).

(** Cell 14. *)
Definition cell_show (ns : namespace) : cell W namespace :=
  pretty_print_docs (retrieved_docs ns) ;;
  ret ns.

(** Cell 15: the augmented request.
<<
    query_engine = RetrieverQueryEngine(retriever=retriever)
    result = query_engine.query(query)
    print(f"Result: \n\n{result}")
>> *)
Definition cell_rag (ns : namespace) : cell W namespace :=
  r <- query_engine_query (retriever ns) (query ns) ;;
  print ("Result: " ++ nl ++ nl ++ r) ;;
  ret (set_result r ns).

(** The retrieval pipeline proper: ingestion to augmented answer. *)
Definition pipeline (ns : namespace) : cell W namespace :=
  ns1 <- cell_ingestion ns ;;
  ns1' <- cell_embeddings ns1 ;;
  ns2 <- cell_index ns1' ;;
  ns3 <- cell_retrieve ns2 ;;
  ns4 <- cell_show ns3 ;;
  cell_rag ns4.

(** The notebook run top to bottom on a query. *)
Definition run_all (q : string) : cell W namespace :=
  ns0 <- cell_query q empty_namespace ;;
  ns1 <- cell_basic_generation ns0 ;;
  pipeline ns1.

End Notebook.

End WebSearch.

(** ** [sql_search_langchain.ipynb] *)
Module SqlSearch.

(** A row of [banking_term_deposits], reduced to the two columns the
    notebook computes with. *)
Record row : Type := { job : string; balance : Z }.

Definition DataFrame : Type := list row.

(** [series.mean()]: exact, where pandas rounds to a float; [None] is NaN,
    the mean of no value. *)
Definition mean (xs : list Z) : option Q :=
  match xs with
  | [] => None
  | _ => Some (Qmake (fold_right Z.add 0%Z xs) (Pos.of_nat (List.length xs)))
  end.

(** [df.loc[df['job']=='management', 'balance'].mean()] *)
Definition management_mean_balance (df : DataFrame) : option Q :=
  mean (map balance (filter (fun r => String.eqb (job r) "management") df)).

(** The services behind the notebook.  The chat endpoint answers as the
    world stands, and so does SQLite, from the database it is given and the
    text of the statement (a statement can read the clock or draw a random
    number); the template of the chain is a constant of the library, its two
    prompts (the template filled in, and the same followed by the SQL query
    and its result) and the rendering of a float are functions of their
    arguments. *)
Record services (W D : Type) : Type := {
  chat_completions : list ChatMessage -> W -> outcome string * W;
  sqlite_execute : D -> string -> W -> outcome string * W;
  prompt_template : string;
  sql_prompt : string -> string;
  answer_prompt : string -> string -> string -> string;
  repr_float : Q -> string
}.
Arguments chat_completions {W D} _ _ _.
Arguments sqlite_execute {W D} _ _ _ _.
Arguments prompt_template {W D} _.
Arguments sql_prompt {W D} _ _.
Arguments answer_prompt {W D} _ _ _ _.
Arguments repr_float {W D} _ _.

(** What one call of the chain goes through. *)
Record chain_steps : Type := {
  sql_query : string;
  sql_result : string;
  answer : string
}.

Record namespace : Type := {
  query : string;
  result : option string;
  steps : option chain_steps
}.

Definition empty_namespace : namespace :=
  {| query := EmptyString; result := None; steps := None |}.

Definition set_query (q : string) (ns : namespace) : namespace :=
  {| query := q; result := result ns; steps := steps ns |}.

Definition set_result (r : string) (ns : namespace) : namespace :=
  {| query := query ns; result := Some r; steps := steps ns |}.

Definition set_chain_result (s : chain_steps) (ns : namespace) : namespace :=
  {| query := query ns; result := Some (answer s); steps := Some s |}.

Section Notebook.

Context {W D : Type} (svc : services W D).

(** [llm.invoke(message)]: one request to the hosted chat-completion
    endpoint. *)
Definition llm_invoke (message : list ChatMessage) : cell W string :=
  log (EvGenerate message) ;;
  ask (chat_completions svc message).

(** [db.run(sql)]: the answer of the database as the world stands. *)
Definition db_run (db : D) (sql : string) : cell W string :=
  log (EvSqlRun sql) ;;
  ask (sqlite_execute svc db sql).

(** Modelled from the spec: [db_chain.invoke(query)] ([SQLDatabaseChain] of
    LangChain, not part of the repository), the SQL generator, the SQL
    executor and the formatter of the result, in the words of the notebook:
    the prompt is sent to the model, which returns an SQL query; the query
    is sent to the database; the result goes back to the model along with
    the original query, and the model returns a response in natural
    language.  The chain is verbose: it prints a banner, each step, and a
    closing line, as in the recorded output (without the colour codes).
    The statement goes to the database as the model wrote it; the tidying
    the library does of the completion is not modelled. *)
Definition db_chain_invoke (db : D) (q : string) : cell W chain_steps :=
  print "> Entering new SQLDatabaseChain chain..." ;;
  print q ;;
  sql <- llm_invoke [{| role := "human"; content := sql_prompt svc q |}] ;;
  print ("SQLQuery:" ++ sql) ;;
  res <- db_run db sql ;;
  print ("SQLResult: " ++ res) ;;
  ans <- llm_invoke
           [{| role := "human"; content := answer_prompt svc q sql res |}] ;;
  print ("Answer:" ++ ans) ;;
  print "> Finished chain." ;;
  ret {| sql_query := sql; sql_result := res; answer := ans |}.

(** Cell 7: [query = "..."]. *)
Definition cell_query (q : string) (ns : namespace) : cell W namespace :=
  ret (set_query q ns).

(** Cell 8: the generation request without augmentation.
<<
    message = [("human", query)]
    try:
        result = llm.invoke(message)
        print(f"Result: \n\n{result.content}")
    except Exception as err: ...
>> *)
Definition cell_basic_generation (ns : namespace) : cell W namespace :=
  let message := [{| role := "human"; content := query ns |}] in
  try_except_Exception
    (r <- llm_invoke message ;;
     print ("Result: " ++ nl ++ nl ++ r) ;;
     ret (set_result r ns))
    (fun err => except_handler err ;; ret ns).

(** Cell 10: [print(db_chain.llm_chain.prompt.template)]. *)
Definition cell_template (ns : namespace) : cell W namespace :=
  print (prompt_template svc) ;;
  ret ns.

(** Cell 11: [result = db_chain.invoke(query)]. *)
Definition cell_chain (db : D) (ns : namespace) : cell W namespace :=
  s <- db_chain_invoke db (query ns) ;;
  ret (set_chain_result s ns).

(** Cell 12: the check with pandas. *)
Definition show_mean (m : option Q) : string :=
  match m with
  | None => "nan"
  | Some x => repr_float svc x
  end.

Definition cell_verify (df : DataFrame) (ns : namespace) : cell W namespace :=
  print ("Correct answer using pandas: "
         ++ show_mean (management_mean_balance df)) ;;
  ret ns.

(** The notebook run top to bottom on a query, over the database file and
    the CSV file as they are found. *)
Definition run_all (db : D) (df : DataFrame) (q : string)
    : cell W namespace :=
  ns0 <- cell_query q empty_namespace ;;
  ns1 <- cell_basic_generation ns0 ;;
  ns1' <- cell_template ns1 ;;
  ns2 <- cell_chain db ns1' ;;
  cell_verify df ns2.

End Notebook.

End SqlSearch.

(** ** What is observed of a run *)

(** A kernel that has done nothing yet, over a given world. *)
Definition fresh {W} (w : W) : kernel W :=
  {| world := w; trace := []; stdout := [] |}.

(** The kernel once a generation request has been sent and answered. *)
Definition after_request {W} (k : kernel W) (message : list ChatMessage)
    (w' : W) : kernel W :=
  {| world := w'; trace := trace k ++ [EvGenerate message];
     stdout := stdout k |}.

Definition web_message (ns : WebSearch.namespace) : list ChatMessage :=
  [{| role := "user"; content := WebSearch.query ns |}].

Definition sql_message (ns : SqlSearch.namespace) : list ChatMessage :=
  [{| role := "human"; content := SqlSearch.query ns |}].

(** The message the query engine sends for the augmented request. *)
Definition rag_message {W} (svc : WebSearch.services W)
    (ns : WebSearch.namespace) : list ChatMessage :=
  WebSearch.assemble_prompt svc
    (WebSearch.faiss_search
       (WebSearch.retriever_index (WebSearch.retriever ns))
       (WebSearch.get_text_embedding svc (WebSearch.query ns))
       (WebSearch.similarity_top_k (WebSearch.retriever ns)))
    (WebSearch.query ns).

(** The two messages of the database chain. *)
Definition chain_message_sql {W D} (svc : SqlSearch.services W D)
    (q : string) : list ChatMessage :=
  [{| role := "human"; content := SqlSearch.sql_prompt svc q |}].

Definition chain_message_answer {W D} (svc : SqlSearch.services W D)
    (q sql res : string) : list ChatMessage :=
  [{| role := "human"; content := SqlSearch.answer_prompt svc q sql res |}].

(** The service-unavailable condition, as the notebooks recognise it. *)
Definition service_unavailable (err : exception) : bool :=
  match exc_message err with
  | Some m => str_in "Error code: 503" m
  | None => false
  end.



(** The query an event was handed, for the events that are handed one. *)
Definition query_of (e : event) : option string :=
  match e with
  | EvSearch q | EvRetrieve q | EvPrompt q => Some q
  | _ => None
  end.

Definition handed (q : string) (e : event) : Prop :=
  match query_of e with
  | Some q' => q' = q
  | None => True
  end.

(** [emits P Q c]: from any kernel, [c] only adds to the trace, every event
    it adds satisfies [P], and a value it returns satisfies [Q]. *)
Definition emits {W A} (P : event -> Prop) (Q : A -> Prop) (c : cell W A)
    : Prop :=
  forall k,
    (exists evs, trace (snd (c k)) = (trace k ++ evs)%list /\ Forall P evs)
    /\ (forall a, fst (c k) = Returned a -> Q a).

Definition any {A} (a : A) : Prop := True.

(** The namespace has [query] bound to [q]. *)
Definition bound (q : string) (ns : WebSearch.namespace) : Prop :=
  WebSearch.query ns = q.

(** The cells of the web notebook after the query is bound, in order. *)
Definition web_cells {W} (svc : WebSearch.services W)
    : list (WebSearch.namespace -> cell W WebSearch.namespace) :=
  [WebSearch.cell_basic_generation svc; WebSearch.cell_ingestion svc;
   WebSearch.cell_embeddings; WebSearch.cell_index svc;
   WebSearch.cell_retrieve svc;
   WebSearch.cell_show; WebSearch.cell_rag svc].

(** [html] is what a web server answered for [url], whenever that was. *)
Definition fetched {W} (svc : WebSearch.services W) (url html : string)
    : Prop :=
  exists w w', WebSearch.http_get svc url w = (Returned html, w').

(** What the download loop adds to the trace for the pages it got. *)
Definition fetch_events (pages : list (string * string)) : list event :=
  flat_map (fun p => [EvFetch (fst p); EvExtract (snd p)]) pages.

Definition embed_events (ns : list WebSearch.TextNode) : list event :=
  map (fun n => EvEmbed (WebSearch.node_text n)) ns.

Definition insert_events (ns : list WebSearch.TextNode) : list event :=
  map (fun n => EvInsert (WebSearch.node_text n)) ns.

(** The order of retrieved chunks: nearest first, that is, most similar
    first. *)
Definition nearer (a b : WebSearch.NodeWithScore) : Prop :=
  (WebSearch.score a <= WebSearch.score b)%Z.

Definition more_similar (a b : WebSearch.NodeWithScore) : Prop :=
  (WebSearch.similarity a >= WebSearch.similarity b)%Z.

(** [n] is a chunk of the index, scored with the distance from the query
    vector to the vector stored for it. *)
Definition scored_from (idx : WebSearch.VectorStoreIndex) (qv : list Z)
    (n : WebSearch.NodeWithScore) : Prop :=
  exists v,
    In (v, WebSearch.node n)
       (combine (WebSearch.xb (WebSearch.faiss_index idx))
                (WebSearch.index_nodes idx))
    /\ WebSearch.score n = WebSearch.l2_distance qv v.








(** What [pretty_print_docs] writes for the document at position [i],
    counted from 0. *)
Definition document_entry (i : nat) (doc : WebSearch.NodeWithScore) : string :=
  "Document " ++ WebSearch.show_nat (i + 1) ++ ":" ++ nl ++ nl
  ++ WebSearch.node_text (WebSearch.node doc).

(** [df['job']=='management'], row by row. *)
Definition is_management (r : SqlSearch.row) : bool :=
  String.eqb (SqlSearch.job r) "management".

(** The line the check with pandas prints. *)
Definition pandas_line {W D} (svc : SqlSearch.services W D)
    (df : SqlSearch.DataFrame) : string :=
  "Correct answer using pandas: "
  ++ SqlSearch.show_mean svc (SqlSearch.management_mean_balance df).

(** The kernel in which the pipeline starts when the first request was
    answered with the service-unavailable condition. *)
Definition after_notice {W} (w' : W) (message : list ChatMessage) : kernel W :=
  {| world := w'; trace := [EvGenerate message];
     stdout := [not_ready_message] |}.

(** ** Concrete worlds *)
Module Scenario.

(** The endpoint of these worlds answers from a script: the world is the
    number of requests served so far. *)
Definition scripted (answers : list (outcome string))
    (messages : list ChatMessage) (served : nat) : outcome string * nat :=
  (nth served answers (Returned "I do not know."), S served).

(** [openai.APIStatusError] and its subclasses carry [message]. *)
Definition APIStatusError (class_name status : string) : exception :=
  {| exc_class := class_name;
     exc_is_Exception := true;
     exc_str := "Error code: " ++ status;
     exc_message := Some ("Error code: " ++ status) |}.

Definition InternalServerError : exception :=
  APIStatusError "InternalServerError" "503 - Service Unavailable".

Definition RateLimitError : exception :=
  APIStatusError "RateLimitError" "429 - Too Many Requests".

(** A built-in exception: no [message] attribute. *)
Definition ValueError : exception :=
  {| exc_class := "ValueError";
     exc_is_Exception := true;
     exc_str := "Unknown model";
     exc_message := None |}.

Definition the_query : string := "Who won the 2024 World Series of baseball?".

Definition two_urls : list string :=
  ["https://www.mlb.com/world-series"; "https://en.wikipedia.org/wiki/2024_World_Series"].

Definition web (answers : list (outcome string)) (urls : list string)
    : WebSearch.services nat :=
  {| WebSearch.chat_completions := scripted answers;
     WebSearch.google_search := fun _ w => (Returned urls, w);
     WebSearch.http_get := fun url w => (Returned ("Dodgers win! " ++ url), w);
     WebSearch.html_get_text := fun html => html;
     WebSearch.get_text_embedding := fun t => [Z.of_nat (String.length t)];
     WebSearch.text_qa_template := fun ctx q => ctx ++ nl ++ q |}.

Definition dodgers : outcome string :=
  Returned "The Los Angeles Dodgers won the championship.".

Definition dq : string := String (ascii_of_nat 34) EmptyString.

Definition avg_sql : string :=
  "SELECT AVG(" ++ dq ++ "balance" ++ dq ++ ") FROM banking_term_deposits WHERE "
  ++ dq ++ "job" ++ dq ++ " = 'management'".

Definition count_sql : string :=
  "SELECT COUNT(*) FROM banking_term_deposits WHERE "
  ++ dq ++ "job" ++ dq ++ " = 'management'".

Definition the_sql_query : string :=
  "What is the average balance of all management jobs who applied for banking deposits?".

(** The first rows of the banking table. *)
Definition bank : SqlSearch.DataFrame :=
  [ {| SqlSearch.job := "management"; SqlSearch.balance := 2143 |};
    {| SqlSearch.job := "technician"; SqlSearch.balance := 29 |};
    {| SqlSearch.job := "entrepreneur"; SqlSearch.balance := 2 |};
    {| SqlSearch.job := "blue-collar"; SqlSearch.balance := 1506 |};
    {| SqlSearch.job := "unknown"; SqlSearch.balance := 1 |};
    {| SqlSearch.job := "management"; SqlSearch.balance := 231 |};
    {| SqlSearch.job := "management"; SqlSearch.balance := 447 |} ].

Definition show_Z (z : Z) : string := NilEmpty.string_of_int (Z.to_int z).

Definition show_Q (x : Q) : string :=
  show_Z (Qnum x) ++ "/" ++ show_Z (Zpos (Qden x)).

Definition OperationalError : exception :=
  {| exc_class := "OperationalError";
     exc_is_Exception := true;
     exc_str := "syntax error";
     exc_message := None |}.

(** An engine that knows two statements. *)
Definition execute (db : SqlSearch.DataFrame) (sql : string) : outcome string :=
  if String.eqb sql avg_sql then
    Returned (match SqlSearch.management_mean_balance db with
              | Some x => show_Q x
              | None => "None"
              end)
  else if String.eqb sql count_sql then
    Returned (WebSearch.show_nat
                (List.length
                   (filter (fun r => String.eqb (SqlSearch.job r) "management") db)))
  else Raised OperationalError.

Definition sql (answers : list (outcome string))
    : SqlSearch.services nat SqlSearch.DataFrame :=
  {| SqlSearch.chat_completions := scripted answers;
     SqlSearch.sqlite_execute := fun db statement w => (execute db statement, w);
     SqlSearch.prompt_template := "Question: {input}";
     SqlSearch.sql_prompt := fun q => "Question: " ++ q;
     SqlSearch.answer_prompt := fun q s r =>
       "Question: " ++ q ++ nl ++ "SQLQuery: " ++ s ++ nl ++ "SQLResult: " ++ r;
     SqlSearch.repr_float := show_Q |}.

(** Two calls of the chain, one after the other, on the same question and
    the same database; the endpoint writes the aggregate query the first
    time and a count the second time. *)
Definition varying : SqlSearch.services nat SqlSearch.DataFrame :=
  sql [Returned avg_sql; Returned "The average balance is about 940.";
       Returned count_sql; Returned "There are 3."].

Definition first_call : outcome SqlSearch.chain_steps * kernel nat :=
  SqlSearch.db_chain_invoke varying bank the_sql_query (fresh 0).

Definition second_call : outcome SqlSearch.chain_steps * kernel nat :=
  SqlSearch.db_chain_invoke varying bank the_sql_query
    (fresh (world (snd first_call))).

(** Two calls of the chain again; the endpoint writes the aggregate query
    both times and words its answer differently. *)
Definition steady : SqlSearch.services nat SqlSearch.DataFrame :=
  sql [Returned avg_sql; Returned "The average balance is about 940.";
       Returned avg_sql; Returned "Roughly 940 on average."].

Definition steady_first : outcome SqlSearch.chain_steps * kernel nat :=
  SqlSearch.db_chain_invoke steady bank the_sql_query (fresh 0).

Definition steady_second : outcome SqlSearch.chain_steps * kernel nat :=
  SqlSearch.db_chain_invoke steady bank the_sql_query
    (fresh (world (snd steady_first))).

(** [KeyboardInterrupt] derives from [BaseException] only. *)
Definition KeyboardInterrupt : exception :=
  {| exc_class := "KeyboardInterrupt";
     exc_is_Exception := false;
     exc_str := EmptyString;
     exc_message := None |}.

(** Two retrieved chunks. *)
Definition two_docs : list WebSearch.NodeWithScore :=
  [ {| WebSearch.node := {| WebSearch.node_text := "Dodgers win World Series 2024";
                            WebSearch.node_doc := 0;
                            WebSearch.node_offset := 0 |};
       WebSearch.score := 9 |};
    {| WebSearch.node := {| WebSearch.node_text := "2024 World Series - Wikipedia";
                            WebSearch.node_doc := 1;
                            WebSearch.node_offset := 0 |};
       WebSearch.score := 324 |} ].



End Scenario.

(** * Properties *)

Local Open Scope list_scope.

(** ** The kernel *)

Lemma bind_returned {W A B} (c : cell W A) (f : A -> cell W B) k a k' :
  c k = (Returned a, k') -> bind c f k = f a k'.
Proof. intros H. unfold bind. rewrite H. reflexivity. Qed.

Lemma bind_raised {W A B} (c : cell W A) (f : A -> cell W B) k e k' :
  c k = (Raised e, k') -> bind c f k = (Raised e, k').
Proof. intros H. unfold bind. rewrite H. reflexivity. Qed.

(** A cell that returned did so through both halves of a bind. *)
Lemma bind_inv {W A B} (c : cell W A) (f : A -> cell W B) k b k' :
  bind c f k = (Returned b, k') ->
  exists a k1, c k = (Returned a, k1) /\ f a k1 = (Returned b, k').
Proof.
  unfold bind. destruct (c k) as [[a|e] k1]; intros H.
  - exists a, k1. split; [reflexivity | exact H].
  - discriminate H.
Qed.

Lemma except_handler_no_message {W} (err : exception) (k : kernel W) :
  exc_message err = None ->
  except_handler err k = (Raised (AttributeError "message"), k).
Proof. intros H. unfold except_handler. rewrite H. reflexivity. Qed.

Lemma except_handler_unavailable {W} (err : exception) (k : kernel W) m :
  exc_message err = Some m ->
  str_in "Error code: 503" m = true ->
  except_handler err k =
    (Returned tt,
     {| world := world k; trace := trace k;
        stdout := stdout k ++ [not_ready_message] |}).
Proof.
  intros Hm H. unfold except_handler. rewrite Hm, H. reflexivity.
Qed.

Lemma except_handler_other {W} (err : exception) (k : kernel W) m :
  exc_message err = Some m ->
  str_in "Error code: 503" m = false ->
  except_handler err k = (Raised err, k).
Proof.
  intros Hm H. unfold except_handler. rewrite Hm, H. reflexivity.
Qed.

(** ** The guarded generation request (cell 8 of both notebooks) *)

Lemma web_basic_generation_caught {W} (svc : WebSearch.services W) ns k err w' :
  WebSearch.chat_completions svc (web_message ns) (world k) = (Raised err, w') ->
  exc_is_Exception err = true ->
  WebSearch.cell_basic_generation svc ns k =
    bind (except_handler err) (fun _ => ret ns)
         (after_request k (web_message ns) w').
Proof.
  intros Hc Hi.
  unfold WebSearch.cell_basic_generation, try_except_Exception.
  unfold WebSearch.llm_chat, bind at 1 2, log, ask. simpl.
  unfold web_message in Hc. rewrite Hc. simpl. rewrite Hi. reflexivity.
Qed.

Lemma sql_basic_generation_caught {W D} (svc : SqlSearch.services W D)
    ns k err w' :
  SqlSearch.chat_completions svc (sql_message ns) (world k) = (Raised err, w') ->
  exc_is_Exception err = true ->
  SqlSearch.cell_basic_generation svc ns k =
    bind (except_handler err) (fun _ => ret ns)
         (after_request k (sql_message ns) w').
Proof.
  intros Hc Hi.
  unfold SqlSearch.cell_basic_generation, try_except_Exception.
  unfold SqlSearch.llm_invoke, bind at 1 2, log, ask. simpl.
  unfold sql_message in Hc. rewrite Hc. simpl. rewrite Hi. reflexivity.
Qed.

(** C10. In both notebooks the handler reads [err.message]: when the
    generation request raises an exception that has no [message] attribute,
    the cell ends with the [AttributeError] of that read, nothing having
    been printed, whatever the exception was; the 503 test is never
    reached. *)
Theorem handler_fails_without_message :
  forall (W D : Type) (wsvc : WebSearch.services W)
         (ssvc : SqlSearch.services W D)
         (wns : WebSearch.namespace) (sns : SqlSearch.namespace)
         (k : kernel W) (err : exception) (w' : W),
    exc_is_Exception err = true ->
    exc_message err = None ->
    (WebSearch.chat_completions wsvc (web_message wns) (world k)
       = (Raised err, w') ->
     WebSearch.cell_basic_generation wsvc wns k
       = (Raised (AttributeError "message"),
          after_request k (web_message wns) w'))
    /\
    (SqlSearch.chat_completions ssvc (sql_message sns) (world k)
       = (Raised err, w') ->
     SqlSearch.cell_basic_generation ssvc sns k
       = (Raised (AttributeError "message"),
          after_request k (sql_message sns) w')).
Proof.
  intros W D wsvc ssvc wns sns k err w' Hi Hm. split; intros Hc.
  - rewrite (web_basic_generation_caught _ _ _ _ _ Hc Hi).
    apply bind_raised, except_handler_no_message, Hm.
  - rewrite (sql_basic_generation_caught _ _ _ _ _ Hc Hi).
    apply bind_raised, except_handler_no_message, Hm.
Qed.

Lemma handler_fails_without_message_witness :
  WebSearch.cell_basic_generation
    (Scenario.web [Raised Scenario.ValueError] Scenario.two_urls)
    (WebSearch.set_query Scenario.the_query WebSearch.empty_namespace)
    (fresh 0)
  = (Raised (AttributeError "message"),
     {| world := 1;
        trace := [EvGenerate [{| role := "user";
                                 content := Scenario.the_query |}]];
        stdout := [] |})
  /\
  SqlSearch.cell_basic_generation
    (Scenario.sql [Raised Scenario.ValueError])
    (SqlSearch.set_query Scenario.the_sql_query SqlSearch.empty_namespace)
    (fresh 0)
  = (Raised (AttributeError "message"),
     {| world := 1;
        trace := [EvGenerate [{| role := "human";
                                 content := Scenario.the_sql_query |}]];
        stdout := [] |}).
Proof.
  destruct (handler_fails_without_message nat SqlSearch.DataFrame
              (Scenario.web [Raised Scenario.ValueError] Scenario.two_urls)
              (Scenario.sql [Raised Scenario.ValueError])
              (WebSearch.set_query Scenario.the_query WebSearch.empty_namespace)
              (SqlSearch.set_query Scenario.the_sql_query
                 SqlSearch.empty_namespace)
              (fresh 0) Scenario.ValueError 1 eq_refl eq_refl) as [Hw Hs].
  split; [apply Hw; reflexivity | apply Hs; reflexivity].
Defined.

(** ** The unguarded requests (cell 15 of the web notebook, cell 11 of the
    SQL notebook) *)

Lemma web_rag_run {W} (svc : WebSearch.services W) ns k :
  WebSearch.cell_rag svc ns k =
    let k1 := {| world := world k;
                 trace := (trace k ++ [EvRetrieve (WebSearch.query ns)])
                          ++ [EvPrompt (WebSearch.query ns)];
                 stdout := stdout k |} in
    match WebSearch.chat_completions svc (rag_message svc ns) (world k) with
    | (Returned s, w') =>
        (Returned (WebSearch.set_result (WebSearch.response_text s) ns),
         {| world := w';
            trace := trace k1 ++ [EvGenerate (rag_message svc ns)];
            stdout := stdout k ++ [("Result: " ++ nl ++ nl
                                    ++ WebSearch.response_text s)%string] |})
    | (Raised e, w') =>
        (Raised e, after_request k1 (rag_message svc ns) w')
    end.
Proof.
  unfold WebSearch.cell_rag, WebSearch.query_engine_query, WebSearch.retrieve,
    WebSearch.llm_chat, rag_message, after_request, bind, log, ask, ret, print.
  simpl.
  destruct (WebSearch.chat_completions svc _ (world k)) as [[s|e] w'];
    reflexivity.
Qed.

Lemma sql_chain_first_raised {W D} (svc : SqlSearch.services W D) db q k e w' :
  SqlSearch.chat_completions svc (chain_message_sql svc q) (world k)
    = (Raised e, w') ->
  fst (SqlSearch.db_chain_invoke svc db q k) = Raised e.
Proof.
  intros H.
  unfold SqlSearch.db_chain_invoke, SqlSearch.llm_invoke, bind, log, ask,
    ret, print. simpl.
  unfold chain_message_sql in H. rewrite H. reflexivity.
Qed.

Lemma sql_chain_second_raised {W D} (svc : SqlSearch.services W D)
    db q k sql w1 res w1' e w2 :
  SqlSearch.chat_completions svc (chain_message_sql svc q) (world k)
    = (Returned sql, w1) ->
  SqlSearch.sqlite_execute svc db sql w1 = (Returned res, w1') ->
  SqlSearch.chat_completions svc (chain_message_answer svc q sql res) w1'
    = (Raised e, w2) ->
  fst (SqlSearch.db_chain_invoke svc db q k) = Raised e.
Proof.
  intros H1 H2 H3.
  unfold SqlSearch.db_chain_invoke, SqlSearch.llm_invoke, SqlSearch.db_run,
    bind, log, ask, ret, print. simpl.
  unfold chain_message_sql in H1. rewrite H1. simpl. rewrite H2. simpl.
  unfold chain_message_answer in H3. rewrite H3. reflexivity.
Qed.

Lemma cell_chain_raised {W D} (svc : SqlSearch.services W D) db ns k e :
  fst (SqlSearch.db_chain_invoke svc db (SqlSearch.query ns) k) = Raised e ->
  fst (SqlSearch.cell_chain svc db ns k) = Raised e.
Proof.
  unfold SqlSearch.cell_chain, bind.
  destruct (SqlSearch.db_chain_invoke svc db (SqlSearch.query ns) k)
    as [[s|e'] k']; simpl; intros H;
    [discriminate H | injection H as ->; reflexivity].
Qed.

(** C5, as the code has it.  Only the first generation request of each
    notebook is guarded: when it raises an [Exception] that carries a
    message, the cell prints the not-ready notice and ends normally if the
    message contains "Error code: 503", and re-raises the exception
    otherwise.  The augmented requests are not guarded: whatever the
    endpoint raises there, service unavailable included, comes out of the
    cell. *)
Theorem only_first_request_guarded :
  forall (W D : Type) (wsvc : WebSearch.services W)
         (ssvc : SqlSearch.services W D) (db : D)
         (wns : WebSearch.namespace) (sns : SqlSearch.namespace)
         (k : kernel W),
    (forall err w' m,
        exc_is_Exception err = true ->
        exc_message err = Some m ->
        WebSearch.chat_completions wsvc (web_message wns) (world k)
          = (Raised err, w') ->
        WebSearch.cell_basic_generation wsvc wns k =
          if str_in "Error code: 503" m
          then (Returned wns,
                {| world := w';
                   trace := trace k ++ [EvGenerate (web_message wns)];
                   stdout := stdout k ++ [not_ready_message] |})
          else (Raised err, after_request k (web_message wns) w'))
    /\
    (forall err w' m,
        exc_is_Exception err = true ->
        exc_message err = Some m ->
        SqlSearch.chat_completions ssvc (sql_message sns) (world k)
          = (Raised err, w') ->
        SqlSearch.cell_basic_generation ssvc sns k =
          if str_in "Error code: 503" m
          then (Returned sns,
                {| world := w';
                   trace := trace k ++ [EvGenerate (sql_message sns)];
                   stdout := stdout k ++ [not_ready_message] |})
          else (Raised err, after_request k (sql_message sns) w'))
    /\
    (forall err w',
        WebSearch.chat_completions wsvc (rag_message wsvc wns) (world k)
          = (Raised err, w') ->
        fst (WebSearch.cell_rag wsvc wns k) = Raised err
        /\ stdout (snd (WebSearch.cell_rag wsvc wns k)) = stdout k)
    /\
    (forall err w',
        SqlSearch.chat_completions ssvc
          (chain_message_sql ssvc (SqlSearch.query sns)) (world k)
          = (Raised err, w') ->
        fst (SqlSearch.cell_chain ssvc db sns k) = Raised err)
    /\
    (forall sql w1 res w1' err w2,
        SqlSearch.chat_completions ssvc
          (chain_message_sql ssvc (SqlSearch.query sns)) (world k)
          = (Returned sql, w1) ->
        SqlSearch.sqlite_execute ssvc db sql w1 = (Returned res, w1') ->
        SqlSearch.chat_completions ssvc
          (chain_message_answer ssvc (SqlSearch.query sns) sql res) w1'
          = (Raised err, w2) ->
        fst (SqlSearch.cell_chain ssvc db sns k) = Raised err).
Proof.
  intros W D wsvc ssvc db wns sns k. repeat split.
  - intros err w' m Hi Hm Hc.
    rewrite (web_basic_generation_caught _ _ _ _ _ Hc Hi).
    destruct (str_in "Error code: 503" m) eqn:E.
    + erewrite bind_returned
        by (apply (except_handler_unavailable _ _ m); assumption).
      reflexivity.
    + apply bind_raised, (except_handler_other _ _ m); assumption.
  - intros err w' m Hi Hm Hc.
    rewrite (sql_basic_generation_caught _ _ _ _ _ Hc Hi).
    destruct (str_in "Error code: 503" m) eqn:E.
    + erewrite bind_returned
        by (apply (except_handler_unavailable _ _ m); assumption).
      reflexivity.
    + apply bind_raised, (except_handler_other _ _ m); assumption.
  - rewrite web_rag_run. simpl. rewrite H. reflexivity.
  - rewrite web_rag_run. simpl. rewrite H. reflexivity.
  - intros err w' H.
    apply cell_chain_raised, (sql_chain_first_raised _ _ _ _ _ w'), H.
  - intros sql w1 res w1' err w2 H1 H2 H3.
    apply cell_chain_raised.
    apply (sql_chain_second_raised _ _ _ _ sql w1 res w1' err w2); assumption.
Qed.

Lemma only_first_request_guarded_witness :
  WebSearch.cell_basic_generation
    (Scenario.web [Raised Scenario.InternalServerError] Scenario.two_urls)
    (WebSearch.set_query Scenario.the_query WebSearch.empty_namespace)
    (fresh 0)
  = (Returned (WebSearch.set_query Scenario.the_query WebSearch.empty_namespace),
     {| world := 1;
        trace := [EvGenerate [{| role := "user";
                                 content := Scenario.the_query |}]];
        stdout := [not_ready_message] |})
  /\
  fst (WebSearch.cell_rag
         (Scenario.web [Raised Scenario.InternalServerError] Scenario.two_urls)
         (WebSearch.set_query Scenario.the_query WebSearch.empty_namespace)
         (fresh 0))
  = Raised Scenario.InternalServerError.
Proof.
  destruct (only_first_request_guarded nat SqlSearch.DataFrame
              (Scenario.web [Raised Scenario.InternalServerError]
                 Scenario.two_urls)
              (Scenario.sql [Raised Scenario.InternalServerError])
              Scenario.bank
              (WebSearch.set_query Scenario.the_query WebSearch.empty_namespace)
              (SqlSearch.set_query Scenario.the_sql_query
                 SqlSearch.empty_namespace)
              (fresh 0)) as (H1 & _ & H3 & _).
  split.
  - exact (H1 Scenario.InternalServerError 1 _ eq_refl eq_refl eq_refl).
  - exact (proj1 (H3 Scenario.InternalServerError 1 eq_refl)).
Defined.

(** C5 does not hold as stated: the endpoint answers the first request and
    is unavailable at the augmented one; the run ends with that exception
    and the not-ready notice is never printed. *)
Lemma later_request_unguarded :
  service_unavailable Scenario.InternalServerError = true
  /\ fst (WebSearch.run_all
            (Scenario.web [Scenario.dodgers; Raised Scenario.InternalServerError]
               Scenario.two_urls)
            Scenario.the_query (fresh 0))
     = Raised Scenario.InternalServerError
  /\ existsb (String.eqb not_ready_message)
       (stdout (snd (WebSearch.run_all
                       (Scenario.web
                          [Scenario.dodgers; Raised Scenario.InternalServerError]
                          Scenario.two_urls)
                       Scenario.the_query (fresh 0))))
     = false.
Proof.
  split; [vm_compute; reflexivity |].
  split; vm_compute; reflexivity.
Qed.

(** ** What the orchestrator hands back *)







(** ** What a cell adds to the trace *)

Section Emits.

Context {W : Type} (P : event -> Prop).

Lemma emits_ret {A} (Q : A -> Prop) (a : A) :
  Q a -> emits (W:=W) P Q (ret a).
Proof.
  intros H k. split.
  - exists []. simpl. rewrite app_nil_r. auto.
  - simpl. intros a' E. injection E as <-. exact H.
Qed.

Lemma emits_raise {A} (Q : A -> Prop) (e : exception) :
  emits (W:=W) P Q (raise e).
Proof.
  intros k. split.
  - exists []. simpl. rewrite app_nil_r. auto.
  - simpl. intros a E. discriminate E.
Qed.

Lemma emits_log (e : event) : P e -> emits (W:=W) P any (log e).
Proof.
  intros H k. split.
  - exists [e]. simpl. auto.
  - intros; exact I.
Qed.

Lemma emits_print (s : string) : emits (W:=W) P any (print s).
Proof.
  intros k. split.
  - exists []. simpl. rewrite app_nil_r. auto.
  - intros; exact I.
Qed.

Lemma emits_ask {A} (service : W -> outcome A * W) :
  emits P any (ask service).
Proof.
  intros k. unfold ask. destruct (service (world k)) as [r w']. split.
  - exists []. simpl. rewrite app_nil_r. auto.
  - intros; exact I.
Qed.

Lemma emits_bind {A B} (Q : A -> Prop) (R : B -> Prop)
    (c : cell W A) (f : A -> cell W B) :
  emits P Q c -> (forall a, Q a -> emits P R (f a)) -> emits P R (bind c f).
Proof.
  intros Hc Hf k. unfold bind.
  destruct (Hc k) as [(evs & Ht & Hp) Hq].
  destruct (c k) as [[a|e] k1]; simpl in *.
  - destruct (Hf a (Hq a eq_refl) k1) as [(evs' & Ht' & Hp') Hr]. split.
    + exists (evs ++ evs'). rewrite Ht', Ht, app_assoc. split; [reflexivity|].
      apply Forall_app; auto.
    + exact Hr.
  - split; [exists evs; auto | intros b E; discriminate E].
Qed.

Lemma emits_weaken {A} (Q Q' : A -> Prop) (c : cell W A) :
  (forall a, Q a -> Q' a) -> emits P Q c -> emits P Q' c.
Proof.
  intros H Hc k. destruct (Hc k) as [Ht Hq]. split; [exact Ht | auto].
Qed.

Lemma emits_try {A} (Q : A -> Prop) (body : cell W A)
    (handler : exception -> cell W A) :
  emits P Q body -> (forall e, emits P Q (handler e)) ->
  emits P Q (try_except_Exception body handler).
Proof.
  intros Hb Hh k. unfold try_except_Exception.
  destruct (Hb k) as [(evs & Ht & Hp) Hq].
  destruct (body k) as [[a|e] k1]; simpl in *.
  - split; [exists evs; auto | exact Hq].
  - destruct (exc_is_Exception e).
    + destruct (Hh e k1) as [(evs' & Ht' & Hp') Hr]. split.
      * exists (evs ++ evs'). rewrite Ht', Ht, app_assoc.
        split; [reflexivity | apply Forall_app; auto].
      * exact Hr.
    + split; [exists evs; auto | intros a E; discriminate E].
Qed.

Lemma emits_except_handler (err : exception) :
  emits (W:=W) P any (except_handler err).
Proof.
  unfold except_handler. destruct (exc_message err) as [m|].
  - destruct (str_in "Error code: 503" m);
      [apply emits_print | apply emits_raise].
  - apply emits_raise.
Qed.

End Emits.

(** One step of a proof that a cell emits: peel a bind, or close a leaf. *)
Ltac emits_step :=
  first
    [ apply emits_log; cbv [handed query_of]; auto
    | apply emits_print
    | apply emits_ask
    | apply emits_raise
    | apply emits_except_handler
    | apply (emits_ret _ any); exact I
    | apply emits_ret; cbv [bound any]; simpl; auto
    | eapply emits_bind; [ | intros ? ? ] ].

Ltac emits_auto := repeat emits_step.

(** ** The query through the web notebook *)

Section WebQuery.

Context {W : Type} (svc : WebSearch.services W) (q : string).

Lemma llm_chat_handed message :
  emits (handed q) any (WebSearch.llm_chat svc message).
Proof. unfold WebSearch.llm_chat. emits_auto. Qed.

Lemma search_handed num stop :
  emits (handed q) any (WebSearch.search svc q num stop).
Proof. unfold WebSearch.search. emits_auto. Qed.

Lemma fetch_all_handed urls acc :
  emits (handed q) any (WebSearch.fetch_all svc urls acc).
Proof.
  revert acc. induction urls as [|u rest IH]; intros acc; simpl.
  - emits_auto.
  - unfold WebSearch.requests_get, WebSearch.soup_get_text. emits_auto.
    apply IH.
Qed.

Lemma embed_nodes_handed ns :
  emits (handed q) any (WebSearch.embed_nodes svc ns).
Proof.
  induction ns as [|n rest IH]; simpl.
  - emits_auto.
  - unfold WebSearch.embed. emits_auto. exact IH.
Qed.

Lemma insert_nodes_handed ns :
  emits (W:=W) (handed q) any (WebSearch.insert_nodes ns).
Proof.
  induction ns as [|n rest IH]; simpl.
  - emits_auto.
  - emits_auto. exact IH.
Qed.

Lemma retrieve_handed r :
  emits (handed q) any (WebSearch.retrieve svc r q).
Proof. unfold WebSearch.retrieve. emits_auto. Qed.

Lemma cell_basic_generation_handed ns :
  bound q ns -> emits (handed q) (bound q) (WebSearch.cell_basic_generation svc ns).
Proof.
  intros Hq. unfold WebSearch.cell_basic_generation.
  apply emits_try; [| intros e].
  - eapply emits_bind; [apply llm_chat_handed | intros r _]. emits_auto.
  - emits_auto.
Qed.

Lemma cell_ingestion_handed ns :
  bound q ns -> emits (handed q) (bound q) (WebSearch.cell_ingestion svc ns).
Proof.
  intros Hq. unfold WebSearch.cell_ingestion. rewrite Hq.
  eapply emits_bind; [apply search_handed | intros urls _].
  eapply emits_bind; [apply fetch_all_handed | intros texts _].
  unfold WebSearch.get_nodes_from_documents. emits_auto.
Qed.

Lemma cell_embeddings_handed ns :
  bound q ns -> emits (W:=W) (handed q) (bound q) (WebSearch.cell_embeddings ns).
Proof. intros Hq. unfold WebSearch.cell_embeddings. emits_auto. Qed.

Lemma cell_index_handed ns :
  bound q ns -> emits (handed q) (bound q) (WebSearch.cell_index svc ns).
Proof.
  intros Hq. unfold WebSearch.cell_index, WebSearch.get_embed_model_dim,
    WebSearch.build_index, WebSearch.embed.
  emits_auto.
  - apply embed_nodes_handed.
  - apply insert_nodes_handed.
Qed.

Lemma cell_retrieve_handed ns :
  bound q ns -> emits (handed q) (bound q) (WebSearch.cell_retrieve svc ns).
Proof.
  intros Hq. unfold WebSearch.cell_retrieve. rewrite Hq.
  eapply emits_bind; [apply retrieve_handed | intros rd _]. emits_auto.
Qed.

Lemma cell_show_handed ns :
  bound q ns -> emits (W:=W) (handed q) (bound q) (WebSearch.cell_show ns).
Proof.
  intros Hq. unfold WebSearch.cell_show, WebSearch.pretty_print_docs.
  emits_auto.
Qed.

Lemma cell_rag_handed ns :
  bound q ns -> emits (handed q) (bound q) (WebSearch.cell_rag svc ns).
Proof.
  intros Hq. unfold WebSearch.cell_rag, WebSearch.query_engine_query.
  rewrite Hq.
  eapply emits_bind; [| intros r _; emits_auto].
  eapply emits_bind; [apply retrieve_handed | intros nodes _].
  eapply emits_bind; [emits_auto | intros _ _].
  eapply emits_bind; [apply llm_chat_handed | intros completion _].
  emits_auto.
Qed.

Lemma pipeline_handed ns :
  bound q ns -> emits (handed q) (bound q) (WebSearch.pipeline svc ns).
Proof.
  intros Hq. unfold WebSearch.pipeline.
  eapply emits_bind; [apply cell_ingestion_handed, Hq | intros ns1 H1].
  eapply emits_bind; [apply cell_embeddings_handed, H1 | intros ns1' H1'].
  eapply emits_bind; [apply cell_index_handed, H1' | intros ns2 H2].
  eapply emits_bind; [apply cell_retrieve_handed, H2 | intros ns3 H3].
  eapply emits_bind; [apply cell_show_handed, H3 | intros ns4 H4].
  apply cell_rag_handed, H4.
Qed.

End WebQuery.

Lemma web_basic_generation_trace {W} (svc : WebSearch.services W) ns k :
  trace (snd (WebSearch.cell_basic_generation svc ns k))
    = trace k ++ [EvGenerate (web_message ns)]
  /\ (forall ns', fst (WebSearch.cell_basic_generation svc ns k) = Returned ns' ->
      WebSearch.query ns' = WebSearch.query ns).
Proof.
  unfold WebSearch.cell_basic_generation, try_except_Exception,
    WebSearch.llm_chat, web_message, bind, log, ask, ret, print. simpl.
  destruct (WebSearch.chat_completions svc _ (world k)) as [[r|e] w']; simpl.
  - split; [reflexivity | intros ns' E; injection E as <-; reflexivity].
  - destruct (exc_is_Exception e); simpl.
    + unfold except_handler. destruct (exc_message e) as [m|]; simpl.
      * destruct (str_in "Error code: 503" m); simpl;
          (split; [reflexivity | intros ns' E; try discriminate E]).
        injection E as <-; reflexivity.
      * split; [reflexivity | intros ns' E; discriminate E].
    + split; [reflexivity | intros ns' E; discriminate E].
Qed.

(** C7. In a run of the web notebook on [q], the first generation request
    carries [q] as its content, every later step that is handed a query
    (search, retrieval, prompt assembly for the augmented request) is handed
    [q], the namespace still binds [query] to [q] when the run ends, and no
    cell changes the binding of [query]. *)
Theorem query_is_immutable :
  forall (W : Type) (svc : WebSearch.services W) (q : string) (w : W),
    (exists rest,
        trace (snd (WebSearch.run_all svc q (fresh w)))
          = EvGenerate [{| role := "user"; content := q |}] :: rest
        /\ Forall (handed q) rest)
    /\ (forall ns',
           fst (WebSearch.run_all svc q (fresh w)) = Returned ns' ->
           WebSearch.query ns' = q)
    /\ Forall (fun c : WebSearch.namespace -> cell W WebSearch.namespace =>
                 forall ns k ns',
                   fst (c ns k) = Returned ns' ->
                   WebSearch.query ns' = WebSearch.query ns)
              (web_cells svc).
Proof.
  intros W svc q w.
  set (ns0 := WebSearch.set_query q WebSearch.empty_namespace).
  assert (Hrun : WebSearch.run_all svc q (fresh w)
                 = bind (WebSearch.cell_basic_generation svc ns0)
                        (WebSearch.pipeline svc) (fresh w)) by reflexivity.
  rewrite Hrun. unfold bind.
  destruct (web_basic_generation_trace svc ns0 (fresh w)) as [Ht Hq].
  destruct (WebSearch.cell_basic_generation svc ns0 (fresh w))
    as [[ns1|e] k1]; simpl in Ht, Hq.
  - assert (H1 : bound q ns1) by (apply (Hq ns1 eq_refl)).
    destruct (pipeline_handed svc q ns1 H1 k1) as [(evs & Hev & Hp) Hb].
    repeat split.
    + exists evs. rewrite Hev, Ht. split; [reflexivity | exact Hp].
    + exact Hb.
    + unfold web_cells. repeat constructor; intros ns k ns' E.
      * apply (proj2 (web_basic_generation_trace svc ns k)), E.
      * apply (proj2 (cell_ingestion_handed svc _ ns eq_refl k)), E.
      * apply (proj2 (cell_embeddings_handed _ ns eq_refl k)), E.
      * apply (proj2 (cell_index_handed svc _ ns eq_refl k)), E.
      * apply (proj2 (cell_retrieve_handed svc _ ns eq_refl k)), E.
      * apply (proj2 (cell_show_handed _ ns eq_refl k)), E.
      * apply (proj2 (cell_rag_handed svc _ ns eq_refl k)), E.
  - repeat split.
    + exists []. simpl. split; [exact Ht | constructor].
    + intros ns' E. discriminate E.
    + unfold web_cells. repeat constructor; intros ns k ns' E.
      * apply (proj2 (web_basic_generation_trace svc ns k)), E.
      * apply (proj2 (cell_ingestion_handed svc _ ns eq_refl k)), E.
      * apply (proj2 (cell_embeddings_handed _ ns eq_refl k)), E.
      * apply (proj2 (cell_index_handed svc _ ns eq_refl k)), E.
      * apply (proj2 (cell_retrieve_handed svc _ ns eq_refl k)), E.
      * apply (proj2 (cell_show_handed _ ns eq_refl k)), E.
      * apply (proj2 (cell_rag_handed svc _ ns eq_refl k)), E.
Qed.

Lemma query_is_immutable_witness :
  match fst (WebSearch.run_all
               (Scenario.web [Scenario.dodgers; Scenario.dodgers]
                  Scenario.two_urls)
               Scenario.the_query (fresh 0)) with
  | Returned ns' => WebSearch.query ns' = Scenario.the_query
  | Raised _ => False
  end.
Proof.
  pose proof (proj1 (proj2 (query_is_immutable nat
                              (Scenario.web [Scenario.dodgers; Scenario.dodgers]
                                 Scenario.two_urls)
                              Scenario.the_query 0))) as H.
  destruct (fst (WebSearch.run_all
                   (Scenario.web [Scenario.dodgers; Scenario.dodgers]
                      Scenario.two_urls)
                   Scenario.the_query (fresh 0))) as [ns|e] eqn:E.
  - apply H. reflexivity.
  - vm_compute in E. discriminate E.
Defined.

(** ** Ingestion (cell 9) *)

Section WebRuns.

Context {W : Type} (svc : WebSearch.services W).

Lemma fetch_all_returned urls : forall acc k texts k',
  WebSearch.fetch_all svc urls acc k = (Returned texts, k') ->
  exists htmls,
    Forall2 (fetched svc) urls htmls
    /\ texts = acc ++ map (WebSearch.html_get_text svc) htmls
    /\ trace k' = trace k ++ fetch_events (combine urls htmls)
    /\ stdout k' = stdout k.
Proof.
  induction urls as [|u rest IH]; intros acc k texts k'; simpl.
  - unfold ret. intros E. injection E as <- <-. exists [].
    simpl. rewrite !app_nil_r. auto.
  - unfold WebSearch.requests_get, WebSearch.soup_get_text,
      bind, log, ask, ret. simpl.
    destruct (WebSearch.http_get svc u (world k)) as [[h|e] w1] eqn:E;
      simpl; [| intros H; discriminate H].
    intros H. apply IH in H. destruct H as (htmls & F & T & Tr & So).
    simpl in Tr, So. exists (h :: htmls). repeat split.
    + constructor; [exists (world k), w1; exact E | exact F].
    + rewrite T, <- app_assoc. reflexivity.
    + rewrite Tr, <- !app_assoc. reflexivity.
    + exact So.
Qed.

Lemma ingestion_returned ns k ns' k' :
  WebSearch.cell_ingestion svc ns k = (Returned ns', k') ->
  exists found w1 htmls,
    WebSearch.google_search svc (WebSearch.query ns) (world k)
      = (Returned found, w1)
    /\ Forall2 (fetched svc) (firstn 10 found) htmls
    /\ ns' = WebSearch.set_ingested
               (map (WebSearch.html_get_text svc) htmls)
               (WebSearch.load_data (map (WebSearch.html_get_text svc) htmls))
               (WebSearch.nodes_from_documents
                  (WebSearch.load_data
                     (map (WebSearch.html_get_text svc) htmls)))
               ns
    /\ trace k' = trace k
                  ++ [EvSearch (WebSearch.query ns)]
                  ++ fetch_events (combine (firstn 10 found) htmls)
                  ++ [EvChunk (List.length htmls)].
Proof.
  unfold WebSearch.cell_ingestion. intros H.
  apply bind_inv in H. destruct H as (urls & k1 & Hs & H).
  apply bind_inv in H. destruct H as (texts & k2 & Hf & H).
  unfold WebSearch.search, bind, log, ask, ret in Hs. simpl in Hs.
  destruct (WebSearch.google_search svc (WebSearch.query ns) (world k))
    as [[found|e] w1] eqn:E; simpl in Hs; [| discriminate Hs].
  injection Hs as <- <-.
  apply fetch_all_returned in Hf.
  destruct Hf as (htmls & F & T & Tr & So). simpl in T, Tr, So. subst texts.
  unfold WebSearch.get_nodes_from_documents, bind, log, ret, print in H.
  simpl in H. injection H as <- <-.
  exists found, w1, htmls. repeat split; try assumption. simpl.
  rewrite Tr, <- !app_assoc. simpl.
  unfold WebSearch.load_data. rewrite !length_map. reflexivity.
Qed.

(** C9. When the ingestion cell completes, the source documents are, one
    for one and in order, the texts extracted from the pages of the URLs the
    search call yielded; the search was called with [stop=10], so there are
    at most ten of them. *)
Theorem one_document_per_url :
  forall (ns : WebSearch.namespace) (k : kernel W)
         (ns' : WebSearch.namespace) (k' : kernel W),
    WebSearch.cell_ingestion svc ns k = (Returned ns', k') ->
    exists urls,
      fst (WebSearch.search svc (WebSearch.query ns) 5 10 k) = Returned urls
      /\ List.length (WebSearch.docs ns') = List.length urls
      /\ List.length (WebSearch.docs ns') <= 10
      /\ Forall2 (fun url doc =>
                    exists html,
                      fetched svc url html
                      /\ WebSearch.doc_text doc
                         = WebSearch.html_get_text svc html)
                 urls (WebSearch.docs ns').
Proof.
  intros ns k ns' k' H.
  apply ingestion_returned in H.
  destruct H as (found & w1 & htmls & Hs & F & -> & _).
  assert (Hsearch : fst (WebSearch.search svc (WebSearch.query ns) 5 10 k)
                    = Returned (firstn 10 found)).
  { unfold WebSearch.search, bind, log, ask, ret. simpl. rewrite Hs.
    reflexivity. }
  assert (Hle : List.length (firstn 10 found) <= 10)
    by apply firstn_le_length.
  revert Hsearch Hle F. generalize (firstn 10 found) as urls.
  intros urls Hsearch Hle F. exists urls.
  assert (Hlen : List.length htmls = List.length urls).
  { symmetry. eapply Forall2_length. exact F. }
  cbn [WebSearch.docs WebSearch.set_ingested]. unfold WebSearch.load_data.
  rewrite !length_map, map_map.
  repeat split; [exact Hsearch | exact Hlen | rewrite Hlen; exact Hle |].
  clear Hsearch Hle Hlen. induction F as [|u h us hs Hu F IH]; simpl.
  - constructor.
  - constructor; [exists h; split; [exact Hu | reflexivity] | exact IH].
Qed.

End WebRuns.

Lemma one_document_per_url_witness :
  exists urls,
    fst (WebSearch.search
           (Scenario.web [Scenario.dodgers] Scenario.two_urls)
           Scenario.the_query 5 10 (fresh 0)) = Returned urls
    /\ List.length urls = 2.
Proof.
  destruct (WebSearch.cell_ingestion
              (Scenario.web [Scenario.dodgers] Scenario.two_urls)
              (WebSearch.set_query Scenario.the_query WebSearch.empty_namespace)
              (fresh 0)) as [[ns'|e] k'] eqn:E.
  - destruct (one_document_per_url
                (Scenario.web [Scenario.dodgers] Scenario.two_urls)
                _ _ _ _ E) as (urls & Hs & Hl & _).
    exists urls. split; [exact Hs |].
    vm_compute in Hs. injection Hs as <-. reflexivity.
  - vm_compute in E. discriminate E.
Defined.

(** ** Indexing, retrieval and the whole pipeline *)

Section WebTrace.

Context {W : Type} (svc : WebSearch.services W).

Lemma embed_nodes_run ns : forall k,
  WebSearch.embed_nodes svc ns k =
    (Returned (map (fun n => WebSearch.get_text_embedding svc
                               (WebSearch.node_text n)) ns),
     {| world := world k; trace := trace k ++ embed_events ns;
        stdout := stdout k |}).
Proof.
  induction ns as [|n rest IH]; intros [w t o]; simpl.
  - unfold ret. rewrite app_nil_r. reflexivity.
  - unfold WebSearch.embed, bind, log, ret. simpl. rewrite IH. simpl.
    rewrite <- app_assoc. reflexivity.
Qed.

Lemma insert_nodes_run ns : forall k : kernel W,
  WebSearch.insert_nodes ns k =
    (Returned tt,
     {| world := world k; trace := trace k ++ insert_events ns;
        stdout := stdout k |}).
Proof.
  induction ns as [|n rest IH]; intros [w t o]; simpl.
  - unfold ret. rewrite app_nil_r. reflexivity.
  - unfold bind, log. simpl. rewrite IH. simpl.
    rewrite <- app_assoc. reflexivity.
Qed.



Lemma cell_show_run ns (k : kernel W) :
  fst (WebSearch.cell_show ns k) = Returned ns
  /\ trace (snd (WebSearch.cell_show ns k)) = trace k.
Proof. split; reflexivity. Qed.




End WebTrace.

(** ** The order of the stages *)













(** ** How often the generation endpoint is called *)

Lemma sql_basic_generation_trace {W D} (svc : SqlSearch.services W D) ns k :
  trace (snd (SqlSearch.cell_basic_generation svc ns k))
    = trace k ++ [EvGenerate (sql_message ns)]
  /\ (forall ns', fst (SqlSearch.cell_basic_generation svc ns k) = Returned ns' ->
      SqlSearch.query ns' = SqlSearch.query ns).
Proof.
  unfold SqlSearch.cell_basic_generation, try_except_Exception,
    SqlSearch.llm_invoke, sql_message, bind, log, ask, ret, print. simpl.
  destruct (SqlSearch.chat_completions svc _ (world k)) as [[r|e] w']; simpl.
  - split; [reflexivity | intros ns' E; injection E as <-; reflexivity].
  - destruct (exc_is_Exception e); simpl.
    + unfold except_handler. destruct (exc_message e) as [m|]; simpl.
      * destruct (str_in "Error code: 503" m); simpl;
          (split; [reflexivity | intros ns' E; try discriminate E]).
        injection E as <-; reflexivity.
      * split; [reflexivity | intros ns' E; discriminate E].
    + split; [reflexivity | intros ns' E; discriminate E].
Qed.

Lemma chain_returned {W D} (svc : SqlSearch.services W D) db q k s k' :
  SqlSearch.db_chain_invoke svc db q k = (Returned s, k') ->
  (exists w w',
      SqlSearch.sqlite_execute svc db (SqlSearch.sql_query s) w
        = (Returned (SqlSearch.sql_result s), w'))
  /\ trace k' = trace k
       ++ [EvGenerate (chain_message_sql svc q);
           EvSqlRun (SqlSearch.sql_query s);
           EvGenerate (chain_message_answer svc q (SqlSearch.sql_query s)
                         (SqlSearch.sql_result s))].
Proof.
  unfold SqlSearch.db_chain_invoke, SqlSearch.llm_invoke, SqlSearch.db_run,
    chain_message_sql, chain_message_answer, bind, log, ask, ret, print.
  simpl.
  destruct (SqlSearch.chat_completions svc _ (world k)) as [[sql|e] w1];
    simpl; [| intros H; discriminate H].
  destruct (SqlSearch.sqlite_execute svc db sql w1) as [[res|e] w2] eqn:E2;
    simpl; [| intros H; discriminate H].
  destruct (SqlSearch.chat_completions svc _ w2) as [[ans|e] w3];
    simpl; [| intros H; discriminate H].
  intros H. injection H as <- <-. simpl.
  split; [exists w1, w2; exact E2 | rewrite <- !app_assoc; reflexivity].
Qed.







(** ** Top-k retrieval *)

Lemma insert_by_score_In n l x :
  In x (WebSearch.insert_by_score n l) <-> x = n \/ In x l.
Proof.
  induction l as [|m rest IH]; simpl.
  - intuition.
  - destruct (WebSearch.score n <? WebSearch.score m)%Z; simpl.
    + intuition.
    + rewrite IH. intuition.
Qed.

Lemma insert_by_score_sorted n l :
  StronglySorted nearer l ->
  StronglySorted nearer (WebSearch.insert_by_score n l).
Proof.
  induction 1 as [|m rest Hs IH Hm]; simpl.
  - repeat constructor.
  - destruct (Z.ltb_spec (WebSearch.score n) (WebSearch.score m)).
    + constructor; [constructor; assumption |].
      constructor; [unfold nearer; lia |].
      eapply Forall_impl; [| exact Hm]. unfold nearer. intros a Ha. lia.
    + constructor; [exact IH |].
      apply Forall_forall. intros x Hx.
      apply insert_by_score_In in Hx. destruct Hx as [-> | Hx].
      * unfold nearer. lia.
      * rewrite Forall_forall in Hm. apply Hm, Hx.
Qed.

Lemma sort_by_score_sorted l :
  StronglySorted nearer (WebSearch.sort_by_score l).
Proof.
  induction l as [|n rest IH]; simpl.
  - constructor.
  - apply insert_by_score_sorted, IH.
Qed.

Lemma sort_by_score_In l x : In x (WebSearch.sort_by_score l) <-> In x l.
Proof.
  induction l as [|n rest IH]; simpl; [reflexivity |].
  rewrite insert_by_score_In, IH. intuition.
Qed.

Lemma firstn_In {A} k (l : list A) x : In x (firstn k l) -> In x l.
Proof.
  intros H. rewrite <- (firstn_skipn k l). apply in_or_app. left. exact H.
Qed.

Lemma firstn_sorted {A} (R : A -> A -> Prop) k : forall l,
  StronglySorted R l -> StronglySorted R (firstn k l).
Proof.
  induction k as [|k IH]; intros l H; simpl; [constructor |].
  destruct H as [|x l Hs Hx]; [constructor |].
  constructor; [apply IH, Hs |].
  rewrite Forall_forall in *. intros y Hy. apply Hx.
  eapply firstn_In. exact Hy.
Qed.

Lemma nearer_more_similar l :
  StronglySorted nearer l -> StronglySorted more_similar l.
Proof.
  induction 1 as [|x l Hs IH Hx]; constructor; [exact IH |].
  eapply Forall_impl; [| exact Hx].
  unfold nearer, more_similar, WebSearch.similarity. intros a Ha. lia.
Qed.

Lemma faiss_search_spec idx qv k :
  List.length (WebSearch.faiss_search idx qv k) <= k
  /\ StronglySorted nearer (WebSearch.faiss_search idx qv k)
  /\ StronglySorted more_similar (WebSearch.faiss_search idx qv k)
  /\ Forall (scored_from idx qv) (WebSearch.faiss_search idx qv k).
Proof.
  unfold WebSearch.faiss_search.
  assert (Hs : StronglySorted nearer
                 (firstn k (WebSearch.sort_by_score
                    (map (fun '(v, n) =>
                            {| WebSearch.node := n;
                               WebSearch.score := WebSearch.l2_distance qv v |})
                         (combine (WebSearch.xb (WebSearch.faiss_index idx))
                                  (WebSearch.index_nodes idx)))))).
  { apply firstn_sorted, sort_by_score_sorted. }
  repeat split.
  - apply firstn_le_length.
  - exact Hs.
  - apply nearer_more_similar, Hs.
  - apply Forall_forall. intros x Hx.
    apply firstn_In, sort_by_score_In, in_map_iff in Hx.
    destruct Hx as ([v n] & <- & Hin). exists v. simpl. auto.
Qed.

(** C2. The retriever of the notebook ([similarity_top_k=5] over the flat
    L2 index) returns at most five chunks; each is a chunk of the index
    scored with the L2 distance between the query embedding and its own; and
    they come nearest first, which is most similar first. *)
Theorem retriever_top_k_sorted :
  forall (W : Type) (svc : WebSearch.services W)
         (ns : WebSearch.namespace) (k : kernel W),
    exists rd,
      fst (WebSearch.cell_retrieve svc ns k)
        = Returned
            (WebSearch.set_retrieved
               {| WebSearch.retriever_index := WebSearch.index ns;
                  WebSearch.similarity_top_k := 5 |} rd ns)
      /\ List.length rd <= 5
      /\ StronglySorted nearer rd
      /\ StronglySorted more_similar rd
      /\ Forall (scored_from (WebSearch.index ns)
                   (WebSearch.get_text_embedding svc (WebSearch.query ns)))
                rd.
Proof.
  intros W svc ns k.
  exists (WebSearch.faiss_search (WebSearch.index ns)
            (WebSearch.get_text_embedding svc (WebSearch.query ns)) 5).
  split; [reflexivity | apply faiss_search_spec].
Qed.

(** ** Running the SQL chain twice *)

(** C6 does not hold as stated: on the same question and the same database
    the endpoint writes one SQL query at the first call of the chain and
    another at the second; the first result is the mean balance of the
    management rows, which is what the direct aggregate gives, the second is
    not. *)
Lemma sql_results_differ :
  (exists s1 s2,
      fst Scenario.first_call = Returned s1
      /\ fst Scenario.second_call = Returned s2
      /\ SqlSearch.sql_result s1 = "2821/3"
      /\ SqlSearch.sql_result s2 = "3")
  /\ SqlSearch.management_mean_balance Scenario.bank = Some (2821 # 3)%Q.
Proof.
  split; [| reflexivity].
  eexists _, _.
  split; [vm_compute; reflexivity |].
  split; [vm_compute; reflexivity |].
  split; reflexivity.
Qed.

(** C6, as the code has it.  Two completed calls of the chain on a database
    give the same SQL result whenever the endpoint wrote the same SQL query
    in both and what the database answers to that query does not depend on
    when it is asked. *)
Theorem same_sql_same_result :
  forall (W D : Type) (svc : SqlSearch.services W D) (db : D) (q : string)
         (k1 k2 : kernel W) (s1 s2 : SqlSearch.chain_steps)
         (k1' k2' : kernel W),
    SqlSearch.db_chain_invoke svc db q k1 = (Returned s1, k1') ->
    SqlSearch.db_chain_invoke svc db q k2 = (Returned s2, k2') ->
    SqlSearch.sql_query s1 = SqlSearch.sql_query s2 ->
    (forall w w',
        fst (SqlSearch.sqlite_execute svc db (SqlSearch.sql_query s1) w)
        = fst (SqlSearch.sqlite_execute svc db (SqlSearch.sql_query s1) w')) ->
    SqlSearch.sql_result s1 = SqlSearch.sql_result s2.
Proof.
  intros W D svc db q k1 k2 s1 s2 k1' k2' H1 H2 Hq Hdet.
  apply chain_returned in H1. apply chain_returned in H2.
  destruct H1 as [(w1 & w1' & E1) _]. destruct H2 as [(w2 & w2' & E2) _].
  rewrite <- Hq in E2. specialize (Hdet w1 w2).
  rewrite E1, E2 in Hdet. simpl in Hdet.
  injection Hdet as Hdet. exact Hdet.
Qed.

Lemma same_sql_same_result_witness :
  match fst Scenario.steady_first, fst Scenario.steady_second with
  | Returned s1, Returned s2 =>
      SqlSearch.answer s1 <> SqlSearch.answer s2
      /\ SqlSearch.sql_result s1 = SqlSearch.sql_result s2
  | _, _ => False
  end.
Proof.
  destruct Scenario.steady_first as [[s1|e] k1] eqn:E1;
    [| vm_compute in E1; discriminate E1].
  destruct Scenario.steady_second as [[s2|e] k2] eqn:E2;
    [| vm_compute in E2; discriminate E2].
  simpl. split.
  - vm_compute in E1. injection E1 as <- _.
    vm_compute in E2. injection E2 as <- _. discriminate.
  - apply (same_sql_same_result nat SqlSearch.DataFrame Scenario.steady
             Scenario.bank Scenario.the_sql_query _ _ s1 s2 k1 k2 E1 E2).
    + vm_compute in E1. injection E1 as <- _.
      vm_compute in E2. injection E2 as <- _. reflexivity.
    + intros w w'. reflexivity.
Defined.

(** * Further properties of the notebooks *)

(** ** The substring test of the handler *)

Lemma append_assoc (a b c : string) :
  ((a ++ b) ++ c)%string = (a ++ b ++ c)%string.
Proof. induction a as [|x a IH]; simpl; [reflexivity | now rewrite IH]. Qed.

Lemma append_nil_r (a : string) : (a ++ EmptyString)%string = a.
Proof. induction a as [|x a IH]; simpl; [reflexivity | now rewrite IH]. Qed.

Lemma prefix_iff (a s : string) :
  String.prefix a s = true <-> exists b, s = (a ++ b)%string.
Proof.
  revert s. induction a as [|x a IH]; intros s.
  - split; [intros _; exists s; reflexivity | intros _; destruct s; reflexivity].
  - destruct s as [|y s]; simpl.
    + split; [intros H; discriminate H | intros [b H]; discriminate H].
    + destruct (Ascii.ascii_dec x y) as [->|Hne].
      * rewrite IH. split; intros [b H]; exists b.
        -- now rewrite H.
        -- now injection H.
      * split; [intros H; discriminate H |].
        intros [b H]. injection H as H1 _. congruence.
Qed.

Lemma str_in_unfold (needle hay : string) :
  str_in needle hay =
    if String.prefix needle hay then true
    else match hay with
         | EmptyString => false
         | String _ rest => str_in needle rest
         end.
Proof. destruct hay; reflexivity. Qed.

(** [needle in hay] holds exactly when [hay] is some text, then [needle],
    then some text. *)
Lemma str_in_iff (needle hay : string) :
  str_in needle hay = true
  <-> exists a b, hay = (a ++ needle ++ b)%string.
Proof.
  split.
  - induction hay as [|c hay IH]; rewrite str_in_unfold;
      destruct (String.prefix needle _) eqn:E.
    + intros _. apply prefix_iff in E. destruct E as [b E].
      exists EmptyString, b. exact E.
    + intros H. discriminate H.
    + intros _. apply prefix_iff in E. destruct E as [b E].
      exists EmptyString, b. exact E.
    + intros H. destruct (IH H) as (a & b & ->).
      exists (String c a), b. reflexivity.
  - intros (a & b & ->). induction a as [|c a IH]; rewrite str_in_unfold.
    + simpl. replace (String.prefix needle (needle ++ b)) with true;
        [reflexivity |].
      symmetry. apply prefix_iff. exists b. reflexivity.
    + destruct (String.prefix needle _); [reflexivity | exact IH].
Qed.

(** X1. On an exception that carries a message, the handler ends normally,
    having printed the not-ready notice, exactly when the message reads some
    text, then "Error code: 503", then some text; in every other case it
    raises the exception again and prints nothing. *)
Theorem handler_prints_iff_message_has_503 :
  forall (W : Type) (err : exception) (m : string) (k : kernel W),
    exc_message err = Some m ->
    ((exists a b, m = (a ++ "Error code: 503" ++ b)%string)
     -> except_handler err k
        = (Returned tt,
           {| world := world k; trace := trace k;
              stdout := stdout k ++ [not_ready_message] |}))
    /\
    ((forall a b, m <> (a ++ "Error code: 503" ++ b)%string)
     -> except_handler err k = (Raised err, k)).
Proof.
  intros W err m k Hm. split; intros H.
  - apply (except_handler_unavailable _ _ m Hm). apply str_in_iff, H.
  - apply (except_handler_other _ _ m Hm).
    destruct (str_in "Error code: 503" m) eqn:E; [| reflexivity].
    apply str_in_iff in E. destruct E as (a & b & E).
    exfalso. exact (H a b E).
Qed.

Lemma handler_prints_iff_message_has_503_witness :
  except_handler Scenario.InternalServerError (fresh 0)
  = (Returned tt,
     {| world := 0; trace := []; stdout := [not_ready_message] |}).
Proof.
  apply (proj1 (handler_prints_iff_message_has_503 nat
                  Scenario.InternalServerError
                  "Error code: 503 - Service Unavailable" (fresh 0) eq_refl)).
  exists EmptyString, " - Service Unavailable". reflexivity.
Defined.

(** X2. Whatever the endpoint does, the guarded cell of either notebook
    never ends with an [Exception] that is the service-unavailable
    condition: that one is always absorbed. *)
Theorem guarded_cell_absorbs_unavailable :
  forall (W D : Type) (wsvc : WebSearch.services W)
         (ssvc : SqlSearch.services W D)
         (wns : WebSearch.namespace) (sns : SqlSearch.namespace)
         (k : kernel W) (e : exception),
    exc_is_Exception e = true ->
    service_unavailable e = true ->
    fst (WebSearch.cell_basic_generation wsvc wns k) <> Raised e
    /\ fst (SqlSearch.cell_basic_generation ssvc sns k) <> Raised e.
Proof.
  intros W D wsvc ssvc wns sns k e Hi Hu.
  assert (Hattr : service_unavailable (AttributeError "message") = false)
    by reflexivity.
  split.
  - unfold WebSearch.cell_basic_generation, try_except_Exception,
      WebSearch.llm_chat, bind, log, ask, ret, print. simpl.
    destruct (WebSearch.chat_completions wsvc _ (world k)) as [[r|err] w'];
      simpl; [discriminate |].
    destruct (exc_is_Exception err) eqn:Ei; simpl.
    + unfold except_handler, service_unavailable in *.
      destruct (exc_message err) as [m|] eqn:Em; simpl.
      * destruct (str_in "Error code: 503" m) eqn:Es; simpl; [discriminate |].
        intros H. injection H as ->. rewrite Em, Es in Hu. discriminate Hu.
      * intros H. injection H as <-. discriminate Hu.
    + intros H. injection H as ->. congruence.
  - unfold SqlSearch.cell_basic_generation, try_except_Exception,
      SqlSearch.llm_invoke, bind, log, ask, ret, print. simpl.
    destruct (SqlSearch.chat_completions ssvc _ (world k)) as [[r|err] w'];
      simpl; [discriminate |].
    destruct (exc_is_Exception err) eqn:Ei; simpl.
    + unfold except_handler, service_unavailable in *.
      destruct (exc_message err) as [m|] eqn:Em; simpl.
      * destruct (str_in "Error code: 503" m) eqn:Es; simpl; [discriminate |].
        intros H. injection H as ->. rewrite Em, Es in Hu. discriminate Hu.
      * intros H. injection H as <-. discriminate Hu.
    + intros H. injection H as ->. congruence.
Qed.

Lemma guarded_cell_absorbs_unavailable_witness :
  fst (WebSearch.cell_basic_generation
         (Scenario.web [Raised Scenario.InternalServerError] Scenario.two_urls)
         (WebSearch.set_query Scenario.the_query WebSearch.empty_namespace)
         (fresh 0))
  <> Raised Scenario.InternalServerError.
Proof.
  exact (proj1 (guarded_cell_absorbs_unavailable nat SqlSearch.DataFrame
                  (Scenario.web [Raised Scenario.InternalServerError]
                     Scenario.two_urls)
                  (Scenario.sql [Raised Scenario.InternalServerError])
                  (WebSearch.set_query Scenario.the_query
                     WebSearch.empty_namespace)
                  (SqlSearch.set_query Scenario.the_sql_query
                     SqlSearch.empty_namespace)
                  (fresh 0) Scenario.InternalServerError eq_refl eq_refl)).
Defined.

(** ** The first request and the rest of the run *)

(** X3. When the first generation request of a notebook ends with an
    exception, the whole run ends with it and that request is all the run
    has done: no search, no download, no SQL statement. *)
Theorem first_request_failure_ends_run :
  forall (W D : Type) (wsvc : WebSearch.services W)
         (ssvc : SqlSearch.services W D) (db : D) (df : SqlSearch.DataFrame)
         (q : string) (w : W) (e : exception),
    (fst (WebSearch.cell_basic_generation wsvc
            (WebSearch.set_query q WebSearch.empty_namespace) (fresh w))
       = Raised e ->
     fst (WebSearch.run_all wsvc q (fresh w)) = Raised e
     /\ trace (snd (WebSearch.run_all wsvc q (fresh w)))
        = [EvGenerate [{| role := "user"; content := q |}]])
    /\
    (fst (SqlSearch.cell_basic_generation ssvc
            (SqlSearch.set_query q SqlSearch.empty_namespace) (fresh w))
       = Raised e ->
     fst (SqlSearch.run_all ssvc db df q (fresh w)) = Raised e
     /\ trace (snd (SqlSearch.run_all ssvc db df q (fresh w)))
        = [EvGenerate [{| role := "human"; content := q |}]]).
Proof.
  intros W D wsvc ssvc db df q w e. split; intros H.
  - pose proof (proj1 (web_basic_generation_trace wsvc
                         (WebSearch.set_query q WebSearch.empty_namespace)
                         (fresh w))) as T.
    assert (Hrun : WebSearch.run_all wsvc q (fresh w)
                   = bind (WebSearch.cell_basic_generation wsvc
                             (WebSearch.set_query q WebSearch.empty_namespace))
                          (WebSearch.pipeline wsvc) (fresh w)) by reflexivity.
    rewrite Hrun.
    destruct (WebSearch.cell_basic_generation wsvc _ (fresh w))
      as [[ns1|e'] k1] eqn:E; simpl in H, T; [discriminate H |].
    injection H as ->. rewrite (bind_raised _ _ _ _ _ E).
    split; [reflexivity | exact T].
  - pose proof (proj1 (sql_basic_generation_trace ssvc
                         (SqlSearch.set_query q SqlSearch.empty_namespace)
                         (fresh w))) as T.
    assert (Hrun : SqlSearch.run_all ssvc db df q (fresh w)
                   = bind (SqlSearch.cell_basic_generation ssvc
                             (SqlSearch.set_query q SqlSearch.empty_namespace))
                          (fun ns1 =>
                             bind (SqlSearch.cell_template ssvc ns1)
                               (fun ns1' =>
                                  bind (SqlSearch.cell_chain ssvc db ns1')
                                       (SqlSearch.cell_verify ssvc df)))
                          (fresh w)) by reflexivity.
    rewrite Hrun.
    destruct (SqlSearch.cell_basic_generation ssvc _ (fresh w))
      as [[ns1|e'] k1] eqn:E; simpl in H, T; [discriminate H |].
    injection H as ->. rewrite (bind_raised _ _ _ _ _ E).
    split; [reflexivity | exact T].
Qed.

Lemma first_request_failure_ends_run_witness :
  fst (WebSearch.run_all
         (Scenario.web [Raised Scenario.RateLimitError] Scenario.two_urls)
         Scenario.the_query (fresh 0))
  = Raised Scenario.RateLimitError
  /\ trace (snd (WebSearch.run_all
                   (Scenario.web [Raised Scenario.RateLimitError]
                      Scenario.two_urls)
                   Scenario.the_query (fresh 0)))
     = [EvGenerate [{| role := "user"; content := Scenario.the_query |}]].
Proof.
  apply (proj1 (first_request_failure_ends_run nat SqlSearch.DataFrame
                  (Scenario.web [Raised Scenario.RateLimitError]
                     Scenario.two_urls)
                  (Scenario.sql []) Scenario.bank Scenario.bank
                  Scenario.the_query 0 Scenario.RateLimitError)).
  vm_compute. reflexivity.
Defined.

(** X4. When the first generation request of the web notebook is answered
    with the service-unavailable condition, the run goes on: it is the
    pipeline, started with [result] unbound, the notice printed and the
    world as the failed request left it. *)
Theorem unavailable_first_request_run_goes_on :
  forall (W : Type) (svc : WebSearch.services W) (q : string) (w w' : W)
         (err : exception) (m : string),
    WebSearch.chat_completions svc
      [{| role := "user"; content := q |}] w = (Raised err, w') ->
    exc_is_Exception err = true ->
    exc_message err = Some m ->
    str_in "Error code: 503" m = true ->
    WebSearch.run_all svc q (fresh w)
    = WebSearch.pipeline svc
        (WebSearch.set_query q WebSearch.empty_namespace)
        (after_notice w' [{| role := "user"; content := q |}])
    /\ WebSearch.result (WebSearch.set_query q WebSearch.empty_namespace)
       = None.
Proof.
  intros W svc q w w' err m Hc Hi Hm Hs. split; [| reflexivity].
  assert (Hrun : WebSearch.run_all svc q (fresh w)
                 = bind (WebSearch.cell_basic_generation svc
                           (WebSearch.set_query q WebSearch.empty_namespace))
                        (WebSearch.pipeline svc) (fresh w)) by reflexivity.
  rewrite Hrun. unfold bind at 1.
  rewrite (web_basic_generation_caught svc
             (WebSearch.set_query q WebSearch.empty_namespace)
             (fresh w) err w' Hc Hi).
  erewrite bind_returned
    by (apply (except_handler_unavailable _ _ m); assumption).
  reflexivity.
Qed.

Lemma unavailable_first_request_run_goes_on_witness :
  exists ns',
    fst (WebSearch.run_all
           (Scenario.web [Raised Scenario.InternalServerError; Scenario.dodgers]
              Scenario.two_urls)
           Scenario.the_query (fresh 0)) = Returned ns'
    /\ WebSearch.result ns'
       = Some "The Los Angeles Dodgers won the championship.".
Proof.
  rewrite (proj1 (unavailable_first_request_run_goes_on nat
             (Scenario.web [Raised Scenario.InternalServerError;
                            Scenario.dodgers] Scenario.two_urls)
             Scenario.the_query 0 1 Scenario.InternalServerError
             "Error code: 503 - Service Unavailable"
             eq_refl eq_refl eq_refl eq_refl)).
  eexists. split; vm_compute; reflexivity.
Defined.

(** ** [pretty_print_docs] *)

Lemma str_in_refl_app (a p b : string) :
  str_in p (a ++ p ++ b)%string = true.
Proof. apply str_in_iff. exists a, b. reflexivity. Qed.

Lemma join_contains (sep : string) (parts : list string) (p : string) :
  In p parts -> str_in p (join sep parts) = true.
Proof.
  induction parts as [|x rest IH]; intros H; [destruct H |].
  destruct rest as [|y rest].
  - destruct H as [-> | []]. simpl. apply str_in_iff.
    exists EmptyString, EmptyString. simpl. now rewrite append_nil_r.
  - change (join sep (x :: y :: rest))
      with (x ++ sep ++ join sep (y :: rest))%string.
    destruct H as [-> | H].
    + apply (str_in_refl_app EmptyString).
    + apply IH in H. apply str_in_iff in H. destruct H as (a & b & ->).
      apply str_in_iff. exists (x ++ sep ++ a)%string, b.
      now rewrite !append_assoc.
Qed.

Lemma enumerate_In {A} (l : list A) : forall start i x,
  nth_error l i = Some x ->
  In (start + i, x) (combine (seq start (List.length l)) l).
Proof.
  induction l as [|y l IH]; intros start i x H.
  - destruct i; discriminate H.
  - destruct i as [|i]; simpl in *.
    + injection H as ->. left. f_equal. lia.
    + right. replace (start + S i) with (S start + i) by lia.
      apply IH, H.
Qed.

(** X6. [pretty_print_docs] prints once and does nothing else; what it
    prints contains, for every document of the list, the line
    "Document n:" with n its position counted from 1, a blank line and the
    text of the document; on an empty list it prints the empty string. *)
Theorem pretty_print_docs_shows_every_document :
  forall (W : Type) (ds : list WebSearch.NodeWithScore) (k : kernel W),
    WebSearch.pretty_print_docs ds k
    = (Returned tt,
       {| world := world k; trace := trace k;
          stdout := stdout k ++ [WebSearch.pretty_docs ds] |})
    /\ (ds = [] -> WebSearch.pretty_docs ds = EmptyString)
    /\ (forall i doc,
           nth_error ds i = Some doc ->
           str_in (document_entry i doc) (WebSearch.pretty_docs ds) = true).
Proof.
  intros W ds k. split; [reflexivity |]. split.
  - intros ->. reflexivity.
  - intros i doc H. unfold WebSearch.pretty_docs.
    apply join_contains. apply in_map_iff.
    exists (i, doc). split; [reflexivity |].
    apply (enumerate_In ds 0 i doc H).
Qed.

Lemma pretty_print_docs_shows_every_document_witness :
  exists doc,
    nth_error Scenario.two_docs 1 = Some doc
    /\ str_in (document_entry 1 doc) (WebSearch.pretty_docs Scenario.two_docs)
       = true
    /\ document_entry 1 doc
       = ("Document 2:" ++ nl ++ nl ++ "2024 World Series - Wikipedia")%string.
Proof.
  destruct (nth_error Scenario.two_docs 1) as [doc|] eqn:E;
    [| vm_compute in E; discriminate E].
  exists doc. split; [reflexivity |]. split.
  - exact (proj2 (proj2 (pretty_print_docs_shows_every_document nat
                           Scenario.two_docs (fresh 0))) 1 doc E).
  - vm_compute in E. injection E as <-. reflexivity.
Defined.

(** ** The check with pandas *)

(** X9. A SQL run that completes ends by printing the mean computed from
    the CSV table alone, whatever the chain found; with no management row
    in the table that line reads "nan". *)
Theorem sql_run_ends_with_pandas_line :
  forall (W D : Type) (svc : SqlSearch.services W D) (db : D)
         (df : SqlSearch.DataFrame) (q : string) (w : W)
         (ns' : SqlSearch.namespace) (k' : kernel W),
    SqlSearch.run_all svc db df q (fresh w) = (Returned ns', k') ->
    (exists earlier s,
        stdout k' = earlier ++ [pandas_line svc df]
        /\ SqlSearch.steps ns' = Some s
        /\ SqlSearch.result ns' = Some (SqlSearch.answer s)
        /\ (exists w1 w2,
               SqlSearch.sqlite_execute svc db (SqlSearch.sql_query s) w1
               = (Returned (SqlSearch.sql_result s), w2)))
    /\ (Forall (fun r => is_management r = false) df ->
        pandas_line svc df = "Correct answer using pandas: nan").
Proof.
  intros W D svc db df q w ns' k' H. split.
  - unfold SqlSearch.run_all in H.
    apply bind_inv in H. destruct H as (ns0 & k0 & _ & H).
    apply bind_inv in H. destruct H as (ns1 & k1 & _ & H).
    apply bind_inv in H. destruct H as (ns1' & k1' & _ & H).
    apply bind_inv in H. destruct H as (ns2 & k2 & H2 & H).
    unfold SqlSearch.cell_chain in H2.
    apply bind_inv in H2. destruct H2 as (s & k3 & H2 & H3).
    apply chain_returned in H2. destruct H2 as [Hx _].
    unfold ret in H3. injection H3 as <- <-.
    unfold SqlSearch.cell_verify, bind, print, ret in H. simpl in H.
    injection H as <- <-. simpl.
    exists (stdout k3), s. repeat split. exact Hx.
  - intros Hn. clear H. unfold pandas_line.
    replace (SqlSearch.management_mean_balance df) with (@None Q);
      [reflexivity |].
    symmetry. unfold SqlSearch.management_mean_balance.
    change (fun r : SqlSearch.row => (SqlSearch.job r =? "management")%string)
      with is_management.
    replace (filter is_management df) with (@nil SqlSearch.row);
      [reflexivity |].
    symmetry. induction Hn as [|r l Hr _ IH]; simpl;
      [reflexivity | rewrite Hr; exact IH].
Qed.

Lemma sql_run_ends_with_pandas_line_witness :
  exists earlier,
    stdout (snd (SqlSearch.run_all
                   (Scenario.sql [Scenario.dodgers; Returned Scenario.count_sql;
                                  Returned "There are 3."])
                   Scenario.bank Scenario.bank Scenario.the_sql_query
                   (fresh 0)))
    = earlier ++ ["Correct answer using pandas: 2821/3"].
Proof.
  destruct (SqlSearch.run_all
              (Scenario.sql [Scenario.dodgers; Returned Scenario.count_sql;
                             Returned "There are 3."])
              Scenario.bank Scenario.bank Scenario.the_sql_query (fresh 0))
    as [[ns'|e] k'] eqn:E; [| vm_compute in E; discriminate E].
  destruct (proj1 (sql_run_ends_with_pandas_line nat SqlSearch.DataFrame
                     _ _ _ _ _ ns' k' E)) as (earlier & s & Hs & _).
  exists earlier. exact Hs.
Defined.

(** ** The index and what is retrieved from it *)

Lemma cell_index_returns {W} (svc : WebSearch.services W) ns k :
  fst (WebSearch.cell_index svc ns k)
  = Returned
      (WebSearch.set_index
         {| WebSearch.faiss_index :=
              {| WebSearch.d :=
                   List.length (WebSearch.get_text_embedding svc "Dummy Text");
                 WebSearch.xb :=
                   map (fun n => WebSearch.get_text_embedding svc
                                   (WebSearch.node_text n))
                       (WebSearch.chunks ns) |};
            WebSearch.index_nodes := WebSearch.chunks ns |} ns).
Proof.
  unfold WebSearch.cell_index, WebSearch.get_embed_model_dim,
    WebSearch.build_index, WebSearch.embed, bind, log, ret. simpl.
  rewrite embed_nodes_run. simpl. rewrite insert_nodes_run. reflexivity.
Qed.

(** X10. With an embedding model whose vectors all have the same length,
    the flat index is created with that length as its dimension (measured
    on the dummy text), it holds one vector per chunk, and every vector it
    holds has the dimension of the index. *)
Theorem index_dimension_matches_model :
  forall (W : Type) (svc : WebSearch.services W)
         (ns : WebSearch.namespace) (k : kernel W) (n : nat),
    (forall text, List.length (WebSearch.get_text_embedding svc text) = n) ->
    exists ns',
      fst (WebSearch.cell_index svc ns k) = Returned ns'
      /\ WebSearch.d (WebSearch.faiss_index (WebSearch.index ns')) = n
      /\ List.length (WebSearch.xb (WebSearch.faiss_index (WebSearch.index ns')))
         = List.length (WebSearch.chunks ns)
      /\ Forall (fun v => List.length v
                          = WebSearch.d (WebSearch.faiss_index
                                           (WebSearch.index ns')))
                (WebSearch.xb (WebSearch.faiss_index (WebSearch.index ns')))
      /\ WebSearch.chunks ns' = WebSearch.chunks ns.
Proof.
  intros W svc ns k n Hn. eexists. split; [apply cell_index_returns |].
  cbn [WebSearch.index WebSearch.set_index WebSearch.faiss_index WebSearch.d
       WebSearch.xb WebSearch.chunks].
  repeat split.
  - apply Hn.
  - apply length_map.
  - apply Forall_forall. intros v Hv. apply in_map_iff in Hv.
    destruct Hv as (c & <- & _). rewrite !Hn. reflexivity.
Qed.

Lemma index_dimension_matches_model_witness :
  exists ns',
    fst (WebSearch.cell_index
           (Scenario.web [] [])
           (WebSearch.set_ingested [] []
              (map WebSearch.node Scenario.two_docs) WebSearch.empty_namespace)
           (fresh 0)) = Returned ns'
    /\ WebSearch.d (WebSearch.faiss_index (WebSearch.index ns')) = 1.
Proof.
  destruct (index_dimension_matches_model nat (Scenario.web [] [])
              (WebSearch.set_ingested [] []
                 (map WebSearch.node Scenario.two_docs)
                 WebSearch.empty_namespace)
              (fresh 0) 1 (fun text => eq_refl))
    as (ns' & H & Hd & _).
  exists ns'. split; assumption.
Defined.

Lemma insert_by_score_length n l :
  List.length (WebSearch.insert_by_score n l) = S (List.length l).
Proof.
  induction l as [|m rest IH]; simpl; [reflexivity |].
  destruct (WebSearch.score n <? WebSearch.score m)%Z; simpl;
    [reflexivity | now rewrite IH].
Qed.

Lemma sort_by_score_length l :
  List.length (WebSearch.sort_by_score l) = List.length l.
Proof.
  induction l as [|n rest IH]; simpl; [reflexivity |].
  now rewrite insert_by_score_length, IH.
Qed.

Lemma combine_map_In {A B} (f : A -> B) (l : list A) v x :
  In (v, x) (combine (map f l) l) -> v = f x /\ In x l.
Proof.
  induction l as [|y l IH]; simpl; [intros [] |].
  intros [H | H].
  - injection H as <- <-. auto.
  - destruct (IH H) as [Hv Hx]. auto.
Qed.

(** X11. Indexing then retrieving: the retrieval cell returns five chunks,
    or all of them when fewer were ingested; each is one of the ingested
    chunks, and its score is the distance between the embedding of the query
    and the embedding of that chunk's own text. *)
Theorem retrieved_are_ingested_chunks :
  forall (W : Type) (svc : WebSearch.services W)
         (ns : WebSearch.namespace) (k : kernel W)
         (ns2 ns3 : WebSearch.namespace) (k2 k3 : kernel W),
    WebSearch.cell_index svc ns k = (Returned ns2, k2) ->
    WebSearch.cell_retrieve svc ns2 k2 = (Returned ns3, k3) ->
    List.length (WebSearch.retrieved_docs ns3)
      = Nat.min 5 (List.length (WebSearch.chunks ns))
    /\ Forall (fun r =>
                 In (WebSearch.node r) (WebSearch.chunks ns)
                 /\ WebSearch.score r
                    = WebSearch.l2_distance
                        (WebSearch.get_text_embedding svc (WebSearch.query ns))
                        (WebSearch.get_text_embedding svc
                           (WebSearch.node_text (WebSearch.node r))))
              (WebSearch.retrieved_docs ns3).
Proof.
  intros W svc ns k ns2 ns3 k2 k3 H2 H3.
  pose proof (cell_index_returns svc ns k) as E2. rewrite H2 in E2.
  simpl in E2. injection E2 as ->.
  unfold WebSearch.cell_retrieve, WebSearch.retrieve, bind, log, ret in H3.
  simpl in H3. injection H3 as <- _.
  cbn [WebSearch.retrieved_docs WebSearch.set_retrieved].
  unfold WebSearch.faiss_search.
  cbn [WebSearch.faiss_index WebSearch.xb WebSearch.index_nodes].
  split.
  - rewrite length_firstn, sort_by_score_length, length_map, length_combine,
      length_map, Nat.min_id. reflexivity.
  - apply Forall_forall. intros r Hr.
    apply firstn_In, sort_by_score_In, in_map_iff in Hr.
    destruct Hr as ([v c] & <- & Hin).
    apply combine_map_In in Hin. destruct Hin as [-> Hc].
    split; [exact Hc | reflexivity].
Qed.

Lemma retrieved_are_ingested_chunks_witness :
  match WebSearch.cell_index (Scenario.web [] [])
          (WebSearch.set_ingested [] []
             (map WebSearch.node Scenario.two_docs)
             (WebSearch.set_query Scenario.the_query
                WebSearch.empty_namespace))
          (fresh 0) with
  | (Returned ns2, k2) =>
      match WebSearch.cell_retrieve (Scenario.web [] []) ns2 k2 with
      | (Returned ns3, _) => List.length (WebSearch.retrieved_docs ns3) = 2
      | (Raised _, _) => False
      end
  | (Raised _, _) => False
  end.
Proof.
  destruct (WebSearch.cell_index (Scenario.web [] [])
              (WebSearch.set_ingested [] []
                 (map WebSearch.node Scenario.two_docs)
                 (WebSearch.set_query Scenario.the_query
                    WebSearch.empty_namespace))
              (fresh 0)) as [[ns2|e] k2] eqn:E2;
    [| vm_compute in E2; discriminate E2].
  destruct (WebSearch.cell_retrieve (Scenario.web [] []) ns2 k2)
    as [[ns3|e] k3] eqn:E3.
  - exact (proj1 (retrieved_are_ingested_chunks nat _ _ _ ns2 ns3 k2 k3
                    E2 E3)).
  - unfold WebSearch.cell_retrieve, WebSearch.retrieve, bind, log, ret in E3.
    simpl in E3. discriminate E3.
Defined.

(** ** What the ingestion cell prints *)

(** X12. An ingestion cell that completes prints exactly two lines, after
    all the downloads: the number of source documents and the number of
    chunks it has bound, in that order. *)
Theorem ingestion_prints_its_counts :
  forall (W : Type) (svc : WebSearch.services W)
         (ns : WebSearch.namespace) (k : kernel W)
         (ns' : WebSearch.namespace) (k' : kernel W),
    WebSearch.cell_ingestion svc ns k = (Returned ns', k') ->
    stdout k'
    = stdout k
      ++ [("Number of source documents: "
           ++ WebSearch.show_nat (List.length (WebSearch.docs ns')))%string;
          ("Number of text chunks: "
           ++ WebSearch.show_nat (List.length (WebSearch.chunks ns')))%string]
    /\ WebSearch.docs ns' = WebSearch.load_data (WebSearch.web_documents ns')
    /\ WebSearch.result ns' = WebSearch.result ns.
Proof.
  intros W svc ns k ns' k' H. unfold WebSearch.cell_ingestion in H.
  apply bind_inv in H. destruct H as (urls & k1 & Hs & H).
  apply bind_inv in H. destruct H as (texts & k2 & Hf & H).
  unfold WebSearch.search, bind, log, ask, ret in Hs. simpl in Hs.
  destruct (WebSearch.google_search svc (WebSearch.query ns) (world k))
    as [[found|e] w1]; simpl in Hs; [| discriminate Hs].
  injection Hs as _ <-.
  apply fetch_all_returned in Hf. destruct Hf as (htmls & _ & _ & _ & So).
  simpl in So.
  unfold WebSearch.get_nodes_from_documents, bind, log, ret, print in H.
  simpl in H. injection H as <- <-. simpl. rewrite So, <- app_assoc.
  repeat split.
Qed.

Lemma ingestion_prints_its_counts_witness :
  stdout (snd (WebSearch.cell_ingestion
                 (Scenario.web [] Scenario.two_urls)
                 (WebSearch.set_query Scenario.the_query
                    WebSearch.empty_namespace) (fresh 0)))
  = ["Number of source documents: 2"; "Number of text chunks: 2"].
Proof.
  destruct (WebSearch.cell_ingestion (Scenario.web [] Scenario.two_urls)
              (WebSearch.set_query Scenario.the_query
                 WebSearch.empty_namespace) (fresh 0))
    as [[ns'|e] k'] eqn:E; [| vm_compute in E; discriminate E].
  cbn [snd].
  rewrite (proj1 (ingestion_prints_its_counts nat _ _ _ ns' k' E)).
  vm_compute in E. injection E as <- _. reflexivity.
Defined.

(** ** Exceptions the handler never sees *)

(** X13. An exception that is not an instance of [Exception] goes through
    the guarded cell of either notebook untouched, even when its message
    contains "Error code: 503": the handler does not run and nothing is
    printed. *)
Theorem guarded_cell_lets_base_exceptions_through :
  forall (W D : Type) (wsvc : WebSearch.services W)
         (ssvc : SqlSearch.services W D)
         (wns : WebSearch.namespace) (sns : SqlSearch.namespace)
         (k : kernel W) (err : exception) (w' : W),
    exc_is_Exception err = false ->
    (WebSearch.chat_completions wsvc (web_message wns) (world k)
       = (Raised err, w') ->
     WebSearch.cell_basic_generation wsvc wns k
       = (Raised err, after_request k (web_message wns) w'))
    /\
    (SqlSearch.chat_completions ssvc (sql_message sns) (world k)
       = (Raised err, w') ->
     SqlSearch.cell_basic_generation ssvc sns k
       = (Raised err, after_request k (sql_message sns) w')).
Proof.
  intros W D wsvc ssvc wns sns k err w' Hi. split; intros Hc.
  - unfold WebSearch.cell_basic_generation, try_except_Exception,
      WebSearch.llm_chat, bind, log, ask. simpl.
    unfold web_message in Hc. rewrite Hc. simpl. rewrite Hi. reflexivity.
  - unfold SqlSearch.cell_basic_generation, try_except_Exception,
      SqlSearch.llm_invoke, bind, log, ask. simpl.
    unfold sql_message in Hc. rewrite Hc. simpl. rewrite Hi. reflexivity.
Qed.

Lemma guarded_cell_lets_base_exceptions_through_witness :
  fst (WebSearch.cell_basic_generation
         (Scenario.web [Raised Scenario.KeyboardInterrupt] Scenario.two_urls)
         (WebSearch.set_query Scenario.the_query WebSearch.empty_namespace)
         (fresh 0))
  = Raised Scenario.KeyboardInterrupt.
Proof.
  rewrite (proj1 (guarded_cell_lets_base_exceptions_through nat
             SqlSearch.DataFrame
             (Scenario.web [Raised Scenario.KeyboardInterrupt]
                Scenario.two_urls)
             (Scenario.sql [])
             (WebSearch.set_query Scenario.the_query WebSearch.empty_namespace)
             (SqlSearch.set_query Scenario.the_sql_query
                SqlSearch.empty_namespace)
             (fresh 0) Scenario.KeyboardInterrupt 1 eq_refl) eq_refl).
  reflexivity.
Defined.
